(** * sagemaker-python-sdk: the JumpStart tuning driver and the PyTorch
      estimator's distribution handling

    Shallow embedding of
    - [src/sagemaker/serve/builder/jumpstart_builder.py]
      ([tune_for_djl_jumpstart], [tune_for_tgi_jumpstart]), and
    - [src/sagemaker/pytorch/estimator.py]
      ([PyTorch.__init__], [_setup_for_training_recipe],
      [_pytorch_distribution_configuration]).

    Python dictionaries are finite maps ([gmap]); dictionaries whose identity
    matters (the estimator's [distribution] argument) live in an explicit
    object store.  Calls into code outside the two files (container
    deployment, benchmarking, the wall clock, validation helpers) are taken
    as parameters that thread an explicit world and may raise.  What a
    tuning call did is stated against the history of those calls: the
    clock readings and the results of the deploy-and-benchmark steps. *)

From Stdlib Require Import Ascii.
From stdpp Require Import gmap strings list fin_maps pretty.

(** ** Python exceptions, results and logging *)

Module Py.

(** The exception classes the two files raise or catch.  The five
    [Local...]/[Skip...] classes come from [sagemaker.serve.utils.exceptions];
    [OtherException] stands for any further class deriving from [Exception];
    the last three derive from [BaseException] only, so an
    [except Exception] clause does not catch them. *)
Inductive exc_class :=
  | LocalDeepPingException
  | LocalModelOutOfMemoryException
  | LocalModelInvocationException
  | LocalModelLoadException
  | SkipTuningComboException
  | ValueError
  | AttributeError
  | IndexError
  | OtherException (name : string)
  | KeyboardInterrupt
  | SystemExit
  | GeneratorExit.

Definition derives_from_Exception (c : exc_class) : bool :=
  match c with
  | KeyboardInterrupt | SystemExit | GeneratorExit => false
  | _ => true
  end.

(** A raised exception object: its class and its message, the first
    argument it was built with, which is [str(e)] when it is the only
    argument. *)
Record exn := Exc { exc_type : exc_class; exc_str : string }.

(** Outcome of a call: a value, or a raised exception. *)
Inductive result (A : Type) :=
  | Return (a : A)
  | Raise (e : exn).
Arguments Return {A} a.
Arguments Raise {A} e.

Definition returned {A} (r : result A) : bool :=
  match r with Return _ => true | Raise _ => false end.

(** Effectful code: state [S] is threaded through, and is kept when an
    exception is raised (what was written before the raise stays written). *)
Definition Eff (S A : Type) : Type := S -> result A * S.

#[export] Instance eff_ret {S} : MRet (Eff S) :=
  fun A a s => (Return a, s).

#[export] Instance eff_bind {S} : MBind (Eff S) :=
  fun A B f m s =>
    match m s with
    | (Return a, s') => f a s'
    | (Raise e, s') => (Raise e, s')
    end.

Definition raise {S A} (e : exn) : Eff S A := fun s => (Raise e, s).

(** [logging] levels; [logger.exception] logs at [ERROR]. *)
Inductive level := DEBUG | INFO | WARNING | ERROR.

End Py.
Export Py.

(** ** jumpstart_builder.py *)

Module JumpStart.

Local Open Scope Z_scope.

(** [sagemaker.serve.mode.function_pointers.Mode] *)
Inductive Mode := IN_PROCESS | LOCAL_CONTAINER | SAGEMAKER_ENDPOINT.

#[export] Instance Mode_eq_dec : EqDecision Mode.
Proof. solve_decision. Defined.

(** [sagemaker.serve.utils.types.ModelServer], restricted to
    [_JS_ENABLED_MODEL_SERVERS]. *)
Inductive ModelServer := DJL_SERVING | TGI.

(** The environment variable each tuner sweeps. *)
Definition tuned_key (srv : ModelServer) : string :=
  match srv with
  | DJL_SERVING => "OPTION_TENSOR_PARALLEL_DEGREE"
  | TGI => "SM_NUM_GPUS"
  end.

(** The seven-slot list [[avg_latency, degree, None, p90,
    avg_tokens_per_second, throughput_per_second, standard_deviation]];
    slot 2 is always [None]. *)
Record Combo (Num : Type) := mkCombo {
  avg_latency : Num;
  degree : Z;
  p90 : Num;
  avg_tokens_per_second : Num;
  throughput_per_second : Num;
  standard_deviation : Num
}.
Arguments mkCombo {Num}.
Arguments avg_latency {Num}.
Arguments degree {Num}.
Arguments p90 {Num}.
Arguments avg_tokens_per_second {Num}.
Arguments throughput_per_second {Num}.
Arguments standard_deviation {Num}.

(** One value of [benchmark_results]: [[tested_env, p90,
    avg_tokens_per_second, throughput_per_second, standard_deviation]]. *)
Record Row (Num : Type) := mkRow {
  tested_env : gmap string string;
  row_p90 : Num;
  row_avg_tokens_per_second : Num;
  row_throughput_per_second : Num;
  row_standard_deviation : Num
}.
Arguments mkRow {Num}.
Arguments tested_env {Num}.
Arguments row_p90 {Num}.
Arguments row_avg_tokens_per_second {Num}.
Arguments row_throughput_per_second {Num}.
Arguments row_standard_deviation {Num}.

(** Arguments handed to [logger] calls. *)
Inductive log_arg (Num : Type) :=
  | AStr (s : string)
  | AInt (z : Z)
  | ANum (n : Num)
  | AEnv (e : gmap string string)
  | ADegrees (l : list Z)
  | AConfig.
Arguments AStr {Num}.
Arguments AInt {Num}.
Arguments ANum {Num}.
Arguments AEnv {Num}.
Arguments ADegrees {Num}.
Arguments AConfig {Num}.

Record log_record (Num : Type) := mkLog {
  lvl : level;
  template : string;
  largs : list (log_arg Num)
}.
Arguments mkLog {Num}.
Arguments lvl {Num}.
Arguments template {Num}.
Arguments largs {Num}.

(** [self.pysdk_model]: only its [env] dictionary is touched by tuning. *)
Record Model := mkModel { env : gmap string string }.

(** How the [for] loop was left. *)
Inductive loop_exit :=
  | Exhausted                 (* the candidate sequence ran out *)
  | DeadlineReached           (* [break] at the deadline check *)
  | Aborted (e : exn)         (* [break] in an [except] clause *)
  | Propagated (e : exn).     (* no [except] clause matched *)

(** The locals of a tuning call, together with two ghost fields that
    record what the loop did: [attempted] lists each candidate for which
    the [try] block was entered, with the clock reading of its deadline
    check, and [benchmarked] lists the combinations whose [try] block ran
    to completion, both oldest first. *)
Record Sweep (Num : Type) `{Countable Num} := mkSweep {
  live_env : gmap string string;
  benchmark_results : gmap Num (Row Num);
  best_tuned_combination : option (Combo Num);
  records : list (log_record Num);
  attempted : list (Z * Z);
  benchmarked : list (Combo Num)
}.
Arguments mkSweep {Num _ _}.
Arguments live_env {Num _ _}.
Arguments benchmark_results {Num _ _}.
Arguments best_tuned_combination {Num _ _}.
Arguments records {Num _ _}.
Arguments attempted {Num _ _}.
Arguments benchmarked {Num _ _}.

(** The collaborators of the tuning driver, none of which is defined in
    this file.  [W] is the state of the outside world (containers, the
    wall clock); every call threads it.  Clock readings are microseconds,
    the resolution of [datetime]. *)
Record Collaborators (W Num : Type) := mkCollaborators {
  Predictor : Type;
  ModelConfig : Type;
  SampleInput : Type;
  (* [datetime.now()] *)
  datetime_now : W -> Z * W;
  (* [_get_admissible_tensor_parallel_degrees(self.js_model_config)] *)
  _get_admissible_tensor_parallel_degrees : ModelConfig -> list Z;
  (* [self.pysdk_model.deploy(model_data_download_timeout=...)]; it is
     bound to [_js_builder_deploy_wrapper], which without a [mode]
     override hands [self.pysdk_model.env] to the container and does not
     write it *)
  deploy : gmap string string -> Z -> Eff W Predictor;
  (* [_serial_benchmark(predictor, sample_input)] *)
  _serial_benchmark : Predictor -> SampleInput -> Eff W (Num * Num * Num);
  (* [_concurrent_benchmark(predictor, sample_input)] *)
  _concurrent_benchmark : Predictor -> SampleInput -> Eff W (Num * Num);
  (* [_more_performant(best_tuned_combination, tuned_configuration)] *)
  _more_performant : Combo Num -> Combo Num -> bool
}.
Arguments Predictor {W Num}.
Arguments ModelConfig {W Num}.
Arguments SampleInput {W Num}.
Arguments datetime_now {W Num}.
Arguments _get_admissible_tensor_parallel_degrees {W Num}.
Arguments deploy {W Num}.
Arguments _serial_benchmark {W Num}.
Arguments _concurrent_benchmark {W Num}.
Arguments _more_performant {W Num}.

(** The fields of the [JumpStart] builder that tuning reads. *)
Record Builder {W Num : Type} (X : Collaborators W Num) := mkBuilder {
  mode : option Mode;
  pysdk_model : Model;
  js_model_config : ModelConfig X;
  sample_input : SampleInput X
}.
Arguments mkBuilder {W Num X}.
Arguments mode {W Num X}.
Arguments pysdk_model {W Num X}.
Arguments js_model_config {W Num X}.
Arguments sample_input {W Num X}.

(** What a tuning call leaves behind: what the caller gets ([outcome]),
    the model object as it is afterwards (also when the call raised), the
    table handed to [_pretty_print_results_*] if any, the log, the final
    locals and the world. *)
Record TuneRun (W Num : Type) `{Countable Num} := mkTuneRun {
  outcome : result Model;
  model_after : Model;
  snapshot : option (gmap string string);
  printed : option (gmap Num (Row Num));
  exit : option loop_exit;
  locals : Sweep Num;
  world : W
}.
Arguments mkTuneRun {W Num _ _}.
Arguments outcome {W Num _ _}.
Arguments model_after {W Num _ _}.
Arguments snapshot {W Num _ _}.
Arguments printed {W Num _ _}.
Arguments exit {W Num _ _}.
Arguments locals {W Num _ _}.
Arguments world {W Num _ _}.

Section Driver.
Context {W Num : Type} `{Countable Num}.
Variable X : Collaborators W Num.

Definition emit (rs : list (log_record Num)) (st : Sweep Num) : Sweep Num :=
  mkSweep (live_env st) (benchmark_results st) (best_tuned_combination st)
          (records st ++ rs) (attempted st) (benchmarked st).

(** [_log_delete_me(data)]; [data] is an f-string, kept here as its
    literal prefix and the interpolated value. *)
Definition _log_delete_me (prefix : string) (a : log_arg Num)
  : list (log_record Num) :=
  [ mkLog DEBUG "*****************************************" [];
    mkLog DEBUG prefix [a];
    mkLog DEBUG "*****************************************" [] ].

(** [timedelta(seconds=n)] in microseconds. *)
Definition timedelta_seconds (n : Z) : Z := n * 1000000.

(** [self.pysdk_model.env.update({key: str(tensor_parallel_degree)})],
    entering the [try] block. *)
Definition apply_candidate (srv : ModelServer) (tpd now : Z)
    (st : Sweep Num) : Sweep Num :=
  mkSweep (<[tuned_key srv := pretty tpd]> (live_env st))
          (benchmark_results st) (best_tuned_combination st)
          (records st) (attempted st ++ [(tpd, now)]) (benchmarked st).

(** The calls inside the [try] block that can raise. *)
Definition deploy_and_benchmark (self : Builder X) (e : gmap string string)
    (max_tuning_duration : Z) : Eff W (Num * Num * Num * Num * Num) :=
  predictor ← deploy X e max_tuning_duration;
  '(avg_latency, p90, avg_tokens_per_second) ←
    _serial_benchmark X predictor (sample_input self);
  '(throughput_per_second, standard_deviation) ←
    _concurrent_benchmark X predictor (sample_input self);
  mret (avg_latency, p90, avg_tokens_per_second,
        throughput_per_second, standard_deviation).

(** [best_tuned_combination] after one more successful candidate:
    a non-empty list is truthy, so [not best_tuned_combination] holds
    exactly while it is still [None]. *)
Definition update_best (best : option (Combo Num)) (c : Combo Num)
  : option (Combo Num) :=
  match best with
  | None => Some c
  | Some b => if _more_performant X b c then Some c else Some b
  end.

(** The rest of the [try] block, after the benchmarks returned. *)
Definition record_result (tpd : Z) (m : Num * Num * Num * Num * Num)
    (st : Sweep Num) : Sweep Num :=
  let '(avg_latency, p90, avg_tokens_per_second,
        throughput_per_second, standard_deviation) := m in
  let tested_env := live_env st in
  let c := mkCombo avg_latency tpd p90 avg_tokens_per_second
                   throughput_per_second standard_deviation in
  mkSweep (live_env st)
    (<[avg_latency := mkRow tested_env p90 avg_tokens_per_second
                            throughput_per_second standard_deviation]>
       (benchmark_results st))
    (update_best (best_tuned_combination st) c)
    (records st ++
       [mkLog INFO
          "Average latency: %s, throughput/s: %s for configuration: %s"
          [ANum avg_latency; ANum throughput_per_second; AEnv tested_env]])
    (attempted st)
    (benchmarked st ++ [c]).

(** The chain of [except] clauses: the records logged when a clause
    matches (each clause ends in [break]), or [None] when no clause
    matches and the exception leaves the function. *)
Definition handlers (srv : ModelServer) (tpd : Z) (e : exn)
  : option (list (log_record Num)) :=
  let unsuccessful :=
    "Deployment unsuccessful with " +:+ tuned_key srv +:+ ": %s. " in
  match exc_type e with
  | LocalDeepPingException =>
      Some [mkLog WARNING
              (unsuccessful +:+ "Failed to invoke the model server: %s")
              [AInt tpd; AStr (exc_str e)]]
  | LocalModelOutOfMemoryException =>
      Some [mkLog WARNING
              (unsuccessful +:+ "Out of memory when loading the model: %s")
              [AInt tpd; AStr (exc_str e)]]
  | LocalModelInvocationException =>
      Some [mkLog WARNING
              (unsuccessful +:+ "Failed to invoke the model server: %s"
               +:+ "Please check that model server configurations are as expected "
               +:+ "(Ex. serialization, deserialization, content_type, accept).")
              [AInt tpd; AStr (exc_str e)]]
  | LocalModelLoadException =>
      Some [mkLog WARNING
              (unsuccessful +:+ "Failed to load the model: %s.")
              [AInt tpd; AStr (exc_str e)]]
  | SkipTuningComboException =>
      Some [mkLog WARNING
              ("Deployment with " +:+ tuned_key srv +:+ ": %s. "
               +:+ "was expected to be successful. However failed with: %s. "
               +:+ "Trying next combination.")
              [AInt tpd; AStr (exc_str e)]]
  | c =>
      if derives_from_Exception c then
        Some (match srv with
              | DJL_SERVING => []
              | TGI => [mkLog ERROR (exc_str e) []]
              end ++
              [mkLog ERROR (unsuccessful +:+ "with uncovered exception")
                     [AInt tpd]])
      else None
  end.

(** The [for] loop over [admissible_tensor_parallel_degrees]. *)
Fixpoint sweep (srv : ModelServer) (self : Builder X)
    (max_tuning_duration timeout : Z) (candidates : list Z)
    (st : Sweep Num) (w : W) : loop_exit * Sweep Num * W :=
  match candidates with
  | [] => (Exhausted, st, w)
  | tensor_parallel_degree :: rest =>
      let st :=
        emit (_log_delete_me "tensor_parallel_degree: "
                             (AInt tensor_parallel_degree)) st in
      let '(now, w) := datetime_now X w in
      if bool_decide (now > timeout) then
        (DeadlineReached,
         emit [mkLog INFO "Max tuning duration reached. Tuning stopped." []]
              st,
         w)
      else
        let st := apply_candidate srv tensor_parallel_degree now st in
        match deploy_and_benchmark self (live_env st)
                                   max_tuning_duration w with
        | (Return m, w) =>
            sweep srv self max_tuning_duration timeout rest
                  (record_result tensor_parallel_degree m st) w
        | (Raise e, w) =>
            match handlers srv tensor_parallel_degree e with
            | Some rs => (Aborted e, emit rs st, w)
            | None => (Propagated e, st, w)
            end
        end
  end.

(** The statements after the loop. *)
Definition conclude (srv : ModelServer)
    (initial_model_configuration : gmap string string)
    (st : Sweep Num) : Sweep Num * option (gmap Num (Row Num)) :=
  match best_tuned_combination st with
  | Some best =>
      let e := <[tuned_key srv := pretty (degree best)]> (live_env st) in
      (mkSweep e (benchmark_results st) (best_tuned_combination st)
         (records st ++
            [mkLog INFO
               ("Model Configuration: %s was most performant with avg latency: %s, "
                +:+ "p90 latency: %s, average tokens per second: %s, throughput/s: %s, "
                +:+ "standard deviation of request %s")
               [AEnv e; ANum (avg_latency best); ANum (p90 best);
                ANum (avg_tokens_per_second best);
                ANum (throughput_per_second best);
                ANum (standard_deviation best)]])
         (attempted st) (benchmarked st),
       Some (benchmark_results st))
  | None =>
      (* [dict.update]: the snapshot's entries win, other keys stay *)
      let e := initial_model_configuration ∪ live_env st in
      (mkSweep e (benchmark_results st) (best_tuned_combination st)
         (records st ++
            [mkLog DEBUG
               ("Failed to gather any tuning results. "
                +:+ "Please inspect the stack trace emitted from live logging for more details. "
                +:+ "Falling back to default model environment variable configurations: %s")
               [AEnv e]])
         (attempted st) (benchmarked st),
       None)
  end.

(** The common body of [tune_for_djl_jumpstart] and
    [tune_for_tgi_jumpstart], which differ in the environment variable
    they sweep and in their log texts only. *)
Definition tune (srv : ModelServer) (self : Builder X)
    (max_tuning_duration : Z) (w : W) : TuneRun W Num :=
  let idle := mkSweep (env (pysdk_model self)) ∅ None [] [] [] in
  if bool_decide (mode self ≠ Some LOCAL_CONTAINER) then
    (* the argument logged is the member [Mode.LOCAL_CONTAINER]; how it
       renders is up to [Mode.__str__], which is not in this file *)
    mkTuneRun (Return (pysdk_model self)) (pysdk_model self) None None None
      (emit [mkLog WARNING
               "Tuning is only a %s capability. Returning original model."
               [AStr "Mode.LOCAL_CONTAINER"]] idle)
      w
  else
    (* [copy.deepcopy] of a [str -> str] dictionary *)
    let initial_model_configuration := env (pysdk_model self) in
    let admissible_tensor_parallel_degrees :=
      _get_admissible_tensor_parallel_degrees X (js_model_config self) in
    let st :=
      emit (_log_delete_me "initial_model_configuration: "
              (AEnv initial_model_configuration) ++
            _log_delete_me "self.js_model_config: " AConfig ++
            _log_delete_me "admissible_tensor_parallel_degrees: "
              (ADegrees admissible_tensor_parallel_degrees)) idle in
    let '(now, w) := datetime_now X w in
    let timeout := now + timedelta_seconds max_tuning_duration in
    let '(how, st, w) :=
      sweep srv self max_tuning_duration timeout
            admissible_tensor_parallel_degrees st w in
    match how with
    | Propagated e =>
        mkTuneRun (Raise e) (mkModel (live_env st))
          (Some initial_model_configuration) None (Some how) st w
    | _ =>
        let '(st, table) := conclude srv initial_model_configuration st in
        mkTuneRun (Return (mkModel (live_env st))) (mkModel (live_env st))
          (Some initial_model_configuration) table (Some how) st w
    end.

Definition tune_for_djl_jumpstart := tune DJL_SERVING.
Definition tune_for_tgi_jumpstart := tune TGI.

End Driver.

End JumpStart.

(** ** pytorch/estimator.py *)

Module PyTorch.

Local Open Scope Z_scope.

(** *** Python values and the object store *)

Definition loc := positive.

(** The values that occur in [distribution], [kwargs] and recipe
    dictionaries.  A dictionary is an object: a value refers to it by its
    address, and two references to one address are aliases. *)
Inductive value :=
  | VNone
  | VBool (b : bool)
  | VInt (z : Z)
  | VStr (s : string)
  | VRef (l : loc).

#[export] Instance value_eq_dec : EqDecision value.
Proof. solve_decision. Defined.

Abbreviation dict := (gmap string value).

(** The state a constructor call runs in: the dictionaries that exist,
    what [logger.warning] has emitted, and the world outside the process
    (file system, network, git), of which nothing is known here. *)
Record State (W : Type) := mkState {
  heap : gmap loc dict;
  warnings : list string;
  outside : W
}.
Arguments mkState {W}.
Arguments heap {W}.
Arguments warnings {W}.
Arguments outside {W}.

Section Store.
Context {W : Type}.

Definition contents (s : State W) (l : loc) : dict :=
  default ∅ (heap s !! l).

(** A dictionary display [{...}] or [d.copy()]: a new object. *)
Definition alloc (d : dict) : Eff (State W) loc :=
  fun s =>
    let l := fresh (dom (heap s)) in
    (Return l, mkState (<[l := d]> (heap s)) (warnings s) (outside s)).

Definition read (l : loc) : Eff (State W) dict :=
  fun s => (Return (contents s l), s).

(** [key in d] *)
Definition contains (l : loc) (key : string) : Eff (State W) bool :=
  fun s => (Return (bool_decide (is_Some (contents s l !! key))), s).

(** [d[key]] *)
Definition getitem (l : loc) (key : string) : Eff (State W) value :=
  fun s =>
    match contents s l !! key with
    | Some v => (Return v, s)
    | None => (Raise (Exc (OtherException "KeyError") key), s)
    end.

(** [d[key] = v] *)
Definition setitem (l : loc) (key : string) (v : value)
  : Eff (State W) unit :=
  fun s =>
    (Return (),
     mkState (<[l := <[key := v]> (contents s l)]> (heap s))
             (warnings s) (outside s)).

(** [del d[key]] *)
Definition delitem (l : loc) (key : string) : Eff (State W) unit :=
  fun s =>
    match contents s l !! key with
    | Some _ =>
        (Return (),
         mkState (<[l := delete key (contents s l)]> (heap s))
                 (warnings s) (outside s))
    | None => (Raise (Exc (OtherException "KeyError") key), s)
    end.

(** [v.get(key, dflt)]; only dictionaries have a [get] method. *)
Definition method_get (v : value) (key : string) (dflt : value)
  : Eff (State W) value :=
  match v with
  | VRef l => fun s => (Return (default dflt (contents s l !! key)), s)
  | _ => raise (Exc AttributeError "object has no attribute 'get'")
  end.

(** Truth value of [v] in an [if]. *)
Definition truthy (s : State W) (v : value) : bool :=
  match v with
  | VNone => false
  | VBool b => b
  | VInt z => bool_decide (z ≠ 0)
  | VStr x => bool_decide (x ≠ "")
  | VRef l => bool_decide (contents s l ≠ ∅)
  end.

Definition is_truthy (v : value) : Eff (State W) bool :=
  fun s => (Return (truthy s v), s).

(** [logger.warning(msg)] *)
Definition warning (msg : string) : Eff (State W) unit :=
  fun s => (Return (), mkState (heap s) (warnings s ++ [msg]) (outside s)).

Definition when (b : bool) (m : Eff (State W) unit) : Eff (State W) unit :=
  if b then m else mret ().

End Store.

(** *** Strings *)

(** [s.endswith(suffix)] *)
Definition endswith (s suffix : string) : bool :=
  let n := String.length s in
  let k := String.length suffix in
  bool_decide (k ≤ n)%nat &&
  bool_decide (String.substring (n - k) k s = suffix).

(** [s.startswith(p)] *)
Definition startswith (s p : string) : bool := String.prefix p s.

(** [s.split(".")] *)
Fixpoint split_dot_go (cur : string) (s : string) : list string :=
  match s with
  | EmptyString => [String.rev cur]
  | String c rest =>
      if bool_decide (c = "."%char)
      then String.rev cur :: split_dot_go EmptyString rest
      else split_dot_go (String c cur) rest
  end.
Definition split_dot (s : string) : list string := split_dot_go EmptyString s.

(** *** Class constants *)

Definition _framework_name : string := "pytorch".
Definition LAUNCH_PYTORCH_DDP_ENV_NAME : string := "sagemaker_pytorch_ddp_enabled".
Definition LAUNCH_TORCH_DISTRIBUTED_ENV_NAME : string :=
  "sagemaker_torch_distributed_enabled".
Definition INSTANCE_TYPE_ENV_NAME : string := "sagemaker_instance_type".
Definition SM_ADAPTER_REPO : string :=
  "git@github.com:aws/private-sagemaker-training-adapter-for-nemo-staging.git".
Definition SM_LAUNCHER_REPO : string :=
  "git@github.com:aws/private-sagemaker-training-launcher-staging.git".
Definition SM_TRAINING_RECIPE_GPU_IMG : string :=
  "855988369404.dkr.ecr.us-west-2.amazonaws.com/chinmayee-dev:adaptor_sept9_v1".
Definition SM_NEURONX_DIST_REPO : string :=
  "https://github.com/aws-neuron/neuronx-distributed-training.git".
Definition SM_NEURONX_DIST_IMG : string :=
  "855988369404.dkr.ecr.us-west-2.amazonaws.com/chinmayee-dev:neuron_sept26_v1".

(** *** Data *)

(** What [_setup_for_training_recipe] consults of a loaded recipe:
    [recipe["trainer"]] with its ["num_nodes"] entry,
    [recipe["model"]] with its ["model_type"] entry, and the truth value
    of [recipe["container"]]; an absent entry is [None]. *)
Record Recipe := mkRecipe {
  trainer : option (option value);
  model : option (option string);
  container : option bool
}.

(** The [args] dictionary [_setup_for_training_recipe] returns. *)
Record RecipeArgs := mkRecipeArgs {
  args_source_dir : string;
  args_entry_point : string;
  args_default_image_uri : string;
  args_distribution : loc;
  args_hyperparameters : dict
}.

(** The [compiler_config] argument: either some object that is not a
    [TrainingCompilerConfig], or a configuration with its truth value. *)
Inductive CompilerArg :=
  | NotACompilerConfig (type_name : string)
  | CompilerConfig (truth : bool).

(** The arguments of [PyTorch.__init__]. *)
Record InitArgs := mkInitArgs {
  entry_point : option string;
  framework_version : option string;
  py_version : option string;
  source_dir : option string;
  hyperparameters : option dict;
  image_uri : option string;
  distribution : option loc;
  compiler_config : option CompilerArg;
  training_recipe : option string;
  recipe_overrides : option loc;
  kwargs : dict
}.

(** What [Framework.__init__] leaves on [self] that this file reads. *)
Record BaseAttrs := mkBaseAttrs {
  instance_type : option string;
  instance_groups : option value
}.

(** The attributes of a constructed estimator. *)
Record Estimator := mkEstimator {
  self_framework_version : option string;
  self_py_version : option string;
  self_base : BaseAttrs;
  self_distribution : loc;
  self_compiler_config : option CompilerArg
}.

(** The local state of [__init__] when it reaches
    [if distribution is not None:]. *)
Record Prepared := mkPrepared {
  p_entry_point : string;
  p_image_uri : option string;
  p_distribution : option loc;
  p_kwargs : dict;
  p_base : BaseAttrs
}.

(** Code this file calls but does not define. *)
Record Externals (W : Type) := mkExternals {
  (* fw_utils *)
  validate_version_or_image_args :
    option string -> option string -> option string -> Eff (State W) unit;
  python_deprecation_warning : string -> string -> string;
  LATEST_PY2_VERSION : string;
  validate_distribution :
    loc -> option value -> string -> option string -> option string ->
    option string -> dict -> Eff (State W) loc;
  profiler_config_deprecation_warning :
    value -> option string -> string -> option string -> Eff (State W) unit;
  (* [Version(framework_version) >= Version("1.3")] *)
  version_at_least_1_3 : string -> Eff (State W) bool;
  (* [super(PyTorch, self).__init__(entry_point, source_dir,
     hyperparameters, image_uri=image_uri, **kwargs)] *)
  Framework___init__ :
    option string -> option string -> option dict -> option string ->
    dict -> Eff (State W) BaseAttrs;
  (* [compiler_config.validate(self)] *)
  compiler_config_validate : Eff (State W) unit;
  (* [EstimatorBase._distribution_configuration] *)
  _distribution_configuration : Estimator -> loc -> Eff (State W) dict;
  (* tempfile, os, shutil, urllib, git, OmegaConf *)
  TemporaryDirectory : string -> Eff (State W) string;
  NamedTemporaryFile_name : string -> Eff (State W) string;
  os_path_isfile : string -> Eff (State W) bool;
  os_path_join : list string -> string;
  os_environ_get : string -> Eff (State W) (option string);
  shutil_copy : string -> string -> Eff (State W) unit;
  urlretrieve : string -> string -> Eff (State W) unit;
  _run_clone_command : string -> string -> Eff (State W) unit;
  OmegaConf_load : string -> Eff (State W) Recipe;
  OmegaConf_merge : Recipe -> loc -> Eff (State W) Recipe;
  OmegaConf_save : Recipe -> string -> Eff (State W) unit
}.
Arguments validate_version_or_image_args {W}.
Arguments python_deprecation_warning {W}.
Arguments LATEST_PY2_VERSION {W}.
Arguments validate_distribution {W}.
Arguments profiler_config_deprecation_warning {W}.
Arguments version_at_least_1_3 {W}.
Arguments Framework___init__ {W}.
Arguments compiler_config_validate {W}.
Arguments _distribution_configuration {W}.
Arguments TemporaryDirectory {W}.
Arguments NamedTemporaryFile_name {W}.
Arguments os_path_isfile {W}.
Arguments os_path_join {W}.
Arguments os_environ_get {W}.
Arguments shutil_copy {W}.
Arguments urlretrieve {W}.
Arguments _run_clone_command {W}.
Arguments OmegaConf_load {W}.
Arguments OmegaConf_merge {W}.
Arguments OmegaConf_save {W}.

Section Estimator.
Context {W : Type}.
Variable X : Externals W.

Local Abbreviation M := (Eff (State W)).

(** [os.environ.get(name, None) or fallback] *)
Definition environ_or (name fallback : string) : M string :=
  v ← os_environ_get X name;
  mret (match v with
        | Some r => if bool_decide (r = "") then fallback else r
        | None => fallback
        end).

(** [overrides.setdefault(key, dict())[sub] = v]; the [dict()] argument
    is built whether or not it is used. *)
Definition setdefault_setitem (overrides : loc) (key sub : string)
    (v : value) : M unit :=
  spare ← alloc ∅;
  d ← read overrides;
  match d !! key with
  | Some (VRef l) => setitem l sub v
  | Some _ =>
      raise (Exc (OtherException "TypeError")
                 "object does not support item assignment")
  | None =>
      setitem overrides key (VRef spare);;
      setitem spare sub v
  end.

Definition model_type_to_entry (model_type : string)
  : option (string * string) :=
  if bool_decide (model_type = "llama_v3") then
    Some ("llama", "llama_pretrain.py")
  else if bool_decide (model_type = "mistral") then
    Some ("mistral", "mistral_pretrain.py")
  else if bool_decide (model_type = "mixtral") then
    Some ("mixtral", "mixtral_pretrain.py")
  else None.

(** The first block of [_setup_for_training_recipe]: bring the recipe
    file to [temp_local_recipe]. *)
Definition fetch_recipe (training_recipe recipe_launcher_dir
    temp_local_recipe : string) : M unit :=
  if endswith training_recipe ".yaml" then
    isfile ← os_path_isfile X training_recipe;
    if (isfile : bool) then shutil_copy X training_recipe temp_local_recipe
    else
      (* try: urlretrieve(...)  except Exception as e: raise ValueError *)
      fun s =>
        match urlretrieve X training_recipe temp_local_recipe s with
        | (Raise e, s') =>
            if derives_from_Exception (exc_type e) then
              (Raise (Exc ValueError
                        ("Could not fetch the provided recipe "
                         +:+ training_recipe +:+ ": exception "
                         +:+ exc_str e)), s')
            else (Raise e, s')
        | r => r
        end
  else
    launcher_repo ← environ_or "training_launcher_git" SM_LAUNCHER_REPO;
    _run_clone_command X launcher_repo recipe_launcher_dir;;
    let recipe :=
      os_path_join X [recipe_launcher_dir; "recipes-collection"; "recipes";
                      "training"; training_recipe +:+ ".yaml"] in
    isfile ← os_path_isfile X recipe;
    if (isfile : bool) then shutil_copy X recipe temp_local_recipe
    else raise (Exc ValueError
                    ("Recipe " +:+ training_recipe +:+ " not found.")).

(** [kwargs["instance_type"].split(".")[1]] mapped to a device type. *)
Definition device_type_of (kwargs : dict) : M string :=
  match kwargs !! "instance_type" with
  | None =>
      raise (Exc ValueError
        "Must pass instance type to estimator when using training recipes.")
  | Some (VStr t) =>
      match split_dot t !! 1%nat with
      | Some instance_type =>
          mret (if startswith instance_type "p"
                   || startswith instance_type "g" then "gpu"
                else if startswith instance_type "trn" then "trainium"
                else "cpu")
      | None => raise (Exc IndexError "list index out of range")
      end
  | Some _ => raise (Exc AttributeError "object has no attribute 'split'")
  end.

(** The [trainer] checks, which may set [kwargs["instance_count"]]. *)
Definition node_count (recipe : Recipe) (kwargs : dict) : M dict :=
  match trainer recipe with
  | None =>
      raise (Exc ValueError
        "Supplied recipe does not contain required field trainer.")
  | Some num_nodes =>
      when (bool_decide (is_Some (kwargs !! "instance_count"))
            && bool_decide (is_Some num_nodes))
           (warning ("Using instance_count argument to estimator to set number "
                     +:+ " of nodes. Ignoring trainer -> num_nodes in recipe."));;
      if bool_decide (is_Some (kwargs !! "instance_count")) then mret kwargs
      else
        match num_nodes with
        | None =>
            raise (Exc ValueError
              ("Must set either instance_count argument for estimator or"
               +:+ "set trainer -> num_nodes in recipe."))
        | Some n => mret (<["instance_count" := n]> kwargs)
        end
  end.

(** The per-device part: source directory, entry point, image and the
    [distribution] dictionary. *)
Definition device_args (device_type recipe_train_dir : string)
    (recipe : Recipe) : M (string * string * string * loc) :=
  if bool_decide (device_type = "gpu") then
    adapter_repo ← environ_or "training_adapter_git" SM_ADAPTER_REPO;
    _run_clone_command X adapter_repo recipe_train_dir;;
    match model recipe with
    | None =>
        raise (Exc ValueError
          "Supplied recipe does not contain required field model.")
    | Some None =>
        raise (Exc ValueError
          "Supplied recipe does not contain required field model_type.")
    | Some (Some model_type) =>
        match model_type_to_entry model_type with
        | None =>
            raise (Exc ValueError
                     ("Model type " +:+ model_type +:+ " not supported"))
        | Some (folder, script) =>
            parameters ← alloc {["placement_strategy" := VStr "cluster"]};
            smp_options ← alloc (<["enabled" := VBool true]>
                                   {["parameters" := VRef parameters]});
            smdistributed ← alloc {["modelparallel" := VRef smp_options]};
            torch_distributed ← alloc {["enabled" := VBool true]};
            distribution ← alloc (<["smdistributed" := VRef smdistributed]>
                                    {["torch_distributed" :=
                                        VRef torch_distributed]});
            mret (os_path_join X [recipe_train_dir; "examples"; folder],
                  script, SM_TRAINING_RECIPE_GPU_IMG, distribution)
        end
    end
  else if bool_decide (device_type = "trainium") then
    _run_clone_command X SM_NEURONX_DIST_REPO recipe_train_dir;;
    torch_distributed ← alloc {["enabled" := VBool true]};
    distribution ← alloc {["torch_distributed" := VRef torch_distributed]};
    mret (os_path_join X [recipe_train_dir; "examples"],
          "training_orchestrator.py", SM_NEURONX_DIST_IMG, distribution)
  else
    raise (Exc ValueError
             ("Devices of type " +:+ device_type
              +:+ " are not supported with training recipes.")).

(** [_setup_for_training_recipe(cls, training_recipe, recipe_overrides,
    kwargs)]; [kwargs] is updated in place, so it is returned too. *)
Definition _setup_for_training_recipe (training_recipe : string)
    (recipe_overrides : option loc) (kwargs : dict)
  : M (RecipeArgs * dict) :=
  recipe_overrides ←
    match recipe_overrides with
    | None => alloc ∅
    | Some l => mret l
    end;
  recipe_train_dir ← TemporaryDirectory X "training_";
  recipe_launcher_dir ← TemporaryDirectory X "launcher_";
  temp_local_recipe ← NamedTemporaryFile_name X "recipe";
  fetch_recipe training_recipe recipe_launcher_dir temp_local_recipe;;
  recipe ← OmegaConf_load X temp_local_recipe;
  device_type ← device_type_of kwargs;
  kwargs ← node_count recipe kwargs;
  '(source_dir, entry_point, default_image_uri, distribution) ←
    device_args device_type recipe_train_dir recipe;
  setdefault_setitem recipe_overrides "run" "results_dir"
                     (VStr "/opt/ml/model");;
  setdefault_setitem recipe_overrides "exp_manager" "exp_dir"
                     (VStr "/opt/ml/model/");;
  recipe ← OmegaConf_merge X recipe recipe_overrides;
  when (bool_decide (container recipe = Some false))
       (warning
          "Ignoring container from training_recipe. Use image_uri arg for estimator.");;
  OmegaConf_save X recipe (os_path_join X [source_dir; "recipe.yaml"]);;
  mret (mkRecipeArgs source_dir entry_point default_image_uri distribution
          (<["config-path" := VStr "."]>
             {["config-name" := VStr "recipe.yaml"]}),
        kwargs).

(** [__init__] up to and including [kwargs["entry_point"] = entry_point]. *)
Definition prologue (a : InitArgs) : M Prepared :=
  '(entry_point, source_dir, hyperparameters, image_uri, distribution,
    kwargs) ←
    match training_recipe a with
    | Some recipe =>
        when (bool_decide (is_Some (entry_point a)))
             (warning "Argument entry_point will be ignored with training_recipe.");;
        when (bool_decide (is_Some (source_dir a)))
             (warning "Argument source_dir will be ignored with training_recipe.");;
        when (bool_decide (is_Some (hyperparameters a)))
             (warning "Argument hyperparameters will be ignored with training recipe.");;
        when (bool_decide (is_Some (distribution a)))
             (warning "Argument distribution will be ignored with training_recipe.");;
        '(args, kwargs) ←
          _setup_for_training_recipe recipe (recipe_overrides a) (kwargs a);
        mret (args_entry_point args, Some (args_source_dir args),
              Some (args_hyperparameters args),
              match image_uri a with
              | None => Some (args_default_image_uri args)
              | Some u => Some u
              end,
              Some (args_distribution args), kwargs)
    | None =>
        match entry_point a with
        | None =>
            raise (Exc ValueError
              "Argument entry_point must be set when training_recipe is not provided")
        | Some e =>
            mret (e, source_dir a, hyperparameters a, image_uri a,
                  distribution a, kwargs a)
        end
    end;
  validate_version_or_image_args X (framework_version a) (py_version a)
                                 image_uri;;
  when (bool_decide (py_version a = Some "py2"))
       (warning (python_deprecation_warning X _framework_name
                   (LATEST_PY2_VERSION X)));;
  kwargs ←
    (if bool_decide (is_Some (kwargs !! "enable_sagemaker_metrics"))
     then mret kwargs
     else
       match framework_version a with
       | Some v =>
           if bool_decide (v = "") then mret kwargs
           else
             recent ← version_at_least_1_3 X v;
             mret (if (recent : bool)
                   then <["enable_sagemaker_metrics" := VBool true]> kwargs
                   else kwargs)
       | None => mret kwargs
       end);
  base ← Framework___init__ X (Some entry_point) source_dir hyperparameters
                            image_uri kwargs;
  mret (mkPrepared entry_point image_uri distribution
          (if bool_decide (is_Some (kwargs !! "entry_point")) then kwargs
           else <["entry_point" := VStr entry_point]> kwargs)
          base).

(** The body of [if "pytorchddp" in distribution:]. *)
Definition rewrite_pytorchddp (distribution : loc) : M loc :=
  has_pytorchddp ← contains distribution "pytorchddp";
  if (has_pytorchddp : bool) then
    has_smdistributed ← contains distribution "smdistributed";
    if (has_smdistributed : bool) then
      (* the exception also carries [distribution] as a second argument,
         so its [str] renders the pair; [exc_str] is the message *)
      raise (Exc ValueError
        ("Cannot use both pytorchddp and smdistributed "
         +:+ "distribution options together."))
    else
      (* distribution = distribution.copy() *)
      original ← read distribution;
      distribution ← alloc original;
      settings ← getitem distribution "pytorchddp";
      dataparallel ← alloc {["dataparallel" := settings]};
      setitem distribution "smdistributed" (VRef dataparallel);;
      delitem distribution "pytorchddp";;
      mret distribution
  else mret distribution.

(** [if distribution is not None: ...] followed by
    [self.distribution = distribution or {}]; returns the local
    [distribution] and what was stored. *)
Definition set_distribution (a : InitArgs) (p : Prepared)
  : M (option loc * loc) :=
  distribution ←
    match p_distribution p with
    | Some d =>
        d ← rewrite_pytorchddp d;
        d ← validate_distribution X d (instance_groups (p_base p))
               _framework_name (framework_version a) (py_version a)
               (p_image_uri p) (p_kwargs p);
        mret (Some d)
    | None => mret None
    end;
  stored ←
    match distribution with
    | Some d =>
        c ← read d;
        if bool_decide (c = ∅) then alloc ∅ else mret d
    | None => alloc ∅
    end;
  mret (distribution, stored).

(** The rest of [__init__]. *)
Definition epilogue (a : InitArgs) (p : Prepared)
    (distribution : option loc) (stored : loc) : M Estimator :=
  match compiler_config a with
  | Some (NotACompilerConfig type_name) =>
      (* the f-string interpolates the class [TrainingCompilerConfig] and
         [type(compiler_config)]; their renderings are kept as the class
         name and [type_name] *)
      raise (Exc ValueError
        ("Expected instance of type TrainingCompilerConfig"
         +:+ "for argument compiler_config. "
         +:+ "Instead got " +:+ type_name))
  | Some (CompilerConfig truth) => when truth (compiler_config_validate X)
  | None =>
      match distribution with
      | Some d =>
          has_pytorchxla ← contains d "pytorchxla";
          when has_pytorchxla
            (raise (Exc ValueError
              ("Distributed training through PyTorch XLA is currently only supported "
               +:+ "when SageMaker Training Compiler is enabled. To learn more, "
               +:+ "see Enable SageMaker Training Compiler at "
               +:+ "https://docs.aws.amazon.com/sagemaker/latest/dg/training-compiler-enable.html.")))
      | None => mret ()
      end
  end;;
  match p_kwargs p !! "profiler_config" with
  | Some c =>
      profiler_config_deprecation_warning X c (p_image_uri p)
        _framework_name (framework_version a)
  | None => mret ()
  end;;
  mret (mkEstimator (framework_version a) (py_version a) (p_base p) stored
                    (compiler_config a)).

Definition __init__ (a : InitArgs) : M Estimator :=
  p ← prologue a;
  '(distribution, stored) ← set_distribution a p;
  epilogue a p distribution stored.

(** The first [if]/[elif] of [_pytorch_distribution_configuration]:
    the values of [pytorch_ddp_enabled] and [torch_distributed_enabled]. *)
Definition enabled_flags (distribution : loc) : M (value * value) :=
  has_pytorchddp ← contains distribution "pytorchddp";
  if (has_pytorchddp : bool) then
    v ← method_get (VRef distribution) "pytorchddp" VNone;
    enabled ← method_get v "enabled" (VBool false);
    mret (enabled, VBool false)
  else
    has_torch_distributed ← contains distribution "torch_distributed";
    if (has_torch_distributed : bool) then
      v ← method_get (VRef distribution) "torch_distributed" VNone;
      enabled ← method_get v "enabled" (VBool false);
      mret (VBool false, enabled)
    else mret (VBool false, VBool false).

Definition with_instance_type (self : Estimator) (config : dict) : dict :=
  match instance_type (self_base self) with
  | Some t => <[INSTANCE_TYPE_ENV_NAME := VStr t]> config
  | None => config
  end.

Definition _pytorch_distribution_configuration (self : Estimator)
    (distribution : loc) : M dict :=
  '(pytorch_ddp_enabled, torch_distributed_enabled) ←
    enabled_flags distribution;
  ddp ← is_truthy pytorch_ddp_enabled;
  if (ddp : bool) then
    mret (with_instance_type self
            {[LAUNCH_PYTORCH_DDP_ENV_NAME := pytorch_ddp_enabled]})
  else
    torch_distributed ← is_truthy torch_distributed_enabled;
    if (torch_distributed : bool) then
      has_smdistributed ← contains distribution "smdistributed";
      config ←
        (if (has_smdistributed : bool)
         then _distribution_configuration X self distribution
         else mret ∅);
      mret (with_instance_type self
              (<[LAUNCH_TORCH_DISTRIBUTED_ENV_NAME :=
                   torch_distributed_enabled]> config))
    else _distribution_configuration X self distribution.

End Estimator.

End PyTorch.

(** ** Concrete collaborators, for running the embeddings *)

Module Simulation.

Import JumpStart.
Local Open Scope Z_scope.

(** The failure kinds of the deploy-and-benchmark step. *)
Inductive Failure :=
  | DeepPing | OutOfMemory | Invocation | Load | Skip | Uncategorized.

Definition exception_of (f : Failure) : exn :=
  match f with
  | DeepPing => Exc LocalDeepPingException "ping failed"
  | OutOfMemory => Exc LocalModelOutOfMemoryException "out of memory"
  | Invocation => Exc LocalModelInvocationException "invocation failed"
  | Load => Exc LocalModelLoadException "load failed"
  | Skip => Exc SkipTuningComboException "skip"
  | Uncategorized => Exc (OtherException "RuntimeError") "container exited"
  end.

(** What one deployment will do: how long it takes (microseconds),
    whether it fails, and what the benchmarks measure. *)
Record Trial := mkTrial {
  takes : Z;
  fails : option Failure;
  measured : Z * Z * Z * Z * Z
}.

(** A scripted world: a clock that advances by [tick] on every reading
    and by [takes] on every deployment, and the trials still to come. *)
Record World := mkWorld {
  clock : Z;
  tick : Z;
  trials : list Trial
}.

Definition sim_deploy (_ : gmap string string) (_ : Z) : Eff World Trial :=
  fun w =>
    match trials w with
    | [] => (Raise (exception_of Uncategorized), w)
    | t :: rest =>
        let w' := mkWorld (clock w + takes t) (tick w) rest in
        match fails t with
        | Some f => (Raise (exception_of f), w')
        | None => (Return t, w')
        end
    end.

Definition collaborators : Collaborators World Z :=
  {| Predictor := Trial;
     ModelConfig := list Z;
     SampleInput := unit;
     datetime_now := fun w =>
       (clock w, mkWorld (clock w + tick w) (tick w) (trials w));
     _get_admissible_tensor_parallel_degrees := fun degrees => degrees;
     deploy := sim_deploy;
     _serial_benchmark := fun t _ w =>
       let '(l, p, a, _, _) := measured t in (Return (l, p, a), w);
     _concurrent_benchmark := fun t _ w =>
       let '(_, _, _, th, sd) := measured t in (Return (th, sd), w);
     _more_performant := fun best tuned =>
       bool_decide (avg_latency tuned < avg_latency best) |}.

Definition builder (m : option Mode) (e : gmap string string)
    (degrees : list Z) : Builder collaborators :=
  @mkBuilder World Z collaborators m (mkModel e) degrees ().

Definition ok (duration latency : Z) : Trial :=
  mkTrial duration None (latency, latency, 1, 1, 0).

Definition ko (duration : Z) (f : Failure) : Trial :=
  mkTrial duration (Some f) (0, 0, 0, 0, 0).

End Simulation.

(** ** A scripted world in which a deployment can be interrupted *)

Module InterruptSimulation.

Import JumpStart.
Local Open Scope Z_scope.

(** As [Simulation.collaborators], except that the deployment asked for
    when the script has run out is interrupted from the keyboard. *)
Definition collaborators : Collaborators Simulation.World Z :=
  {| Predictor := Simulation.Trial;
     ModelConfig := list Z;
     SampleInput := unit;
     datetime_now := datetime_now Simulation.collaborators;
     _get_admissible_tensor_parallel_degrees := fun degrees => degrees;
     deploy := fun e t w =>
       match Simulation.trials w with
       | [] => (Raise (Exc KeyboardInterrupt ""), w)
       | _ => Simulation.sim_deploy e t w
       end;
     _serial_benchmark := _serial_benchmark Simulation.collaborators;
     _concurrent_benchmark := _concurrent_benchmark Simulation.collaborators;
     _more_performant := _more_performant Simulation.collaborators |}.

Definition builder (m : option Mode) (e : gmap string string)
    (degrees : list Z) : Builder collaborators :=
  @mkBuilder Simulation.World Z collaborators m (mkModel e) degrees ().

End InterruptSimulation.

(** ** Concrete collaborators of the estimator *)

Module EstimatorSimulation.

Import PyTorch.
Local Open Scope Z_scope.

(** Helpers that accept everything, a recipe for a Llama model on two
    nodes, and a file system on which every path exists. *)
Definition benign : Externals unit :=
  {| validate_version_or_image_args := fun _ _ _ => mret ();
     python_deprecation_warning := fun framework latest =>
       framework +:+ " py2 support ends with " +:+ latest;
     LATEST_PY2_VERSION := "1.3.1";
     validate_distribution := fun d _ _ _ _ _ _ => mret d;
     profiler_config_deprecation_warning := fun _ _ _ _ => mret ();
     version_at_least_1_3 := fun _ => mret true;
     Framework___init__ := fun _ _ _ _ kw =>
       mret (mkBaseAttrs
               match kw !! "instance_type" with
               | Some (VStr t) => Some t
               | _ => None
               end
               None);
     compiler_config_validate := mret ();
     _distribution_configuration := fun _ _ => mret ∅;
     TemporaryDirectory := fun prefix => mret ("/tmp/" +:+ prefix);
     NamedTemporaryFile_name := fun prefix => mret ("/tmp/" +:+ prefix);
     os_path_isfile := fun _ => mret true;
     os_path_join := String.concat "/";
     os_environ_get := fun _ => mret None;
     shutil_copy := fun _ _ => mret ();
     urlretrieve := fun _ _ => mret ();
     _run_clone_command := fun _ _ => mret ();
     OmegaConf_load := fun _ =>
       mret (mkRecipe (Some (Some (VInt 2))) (Some (Some "llama_v3")) None);
     OmegaConf_merge := fun recipe _ => mret recipe;
     OmegaConf_save := fun _ _ => mret () |}.

(** A store holding the caller's [distribution] at address 1 and the
    settings dictionaries it refers to at addresses 2 and 3. *)
Definition store (distribution : dict) : State unit :=
  mkState (<[1%positive := distribution]>
             (<[2%positive := {["enabled" := VBool true]}]>
                {[3%positive := {["enabled" := VBool true]}]}))
          [] ().

Definition plain_args (distribution : option loc) (recipe : option string)
    (kw : dict) : InitArgs :=
  mkInitArgs (Some "train.py") (Some "2.0") (Some "py310") None None None
             distribution None recipe None kw.

(** A [distribution] naming both [pytorchddp] and [smdistributed]. *)
Definition both_named : dict :=
  <["pytorchddp" := VRef 2%positive]> {["smdistributed" := VRef 3%positive]}.

(** A [distribution] naming [pytorchddp] beside [mpi]. *)
Definition pytorchddp_named : dict :=
  <["pytorchddp" := VRef 2%positive]> {["mpi" := VRef 3%positive]}.

(** A [distribution] naming both [pytorchddp] and [torch_distributed]. *)
Definition both_launchers : dict :=
  <["pytorchddp" := VRef 2%positive]>
    {["torch_distributed" := VRef 3%positive]}.

Definition trainium_kwargs : dict :=
  {["instance_type" := VStr "ml.trn1.32xlarge"]}.

(** [kwargs] as [__init__] has them after the base constructor ran. *)
Definition prepared_kwargs : dict :=
  <["entry_point" := VStr "train.py"]>
    (<["enable_sagemaker_metrics" := VBool true]> trainium_kwargs).

Definition prepared (distribution : option loc) : Prepared :=
  mkPrepared "train.py" None distribution prepared_kwargs
             (mkBaseAttrs (Some "ml.trn1.32xlarge") None).

Definition trained : Estimator :=
  mkEstimator (Some "2.0") (Some "py310")
              (mkBaseAttrs (Some "ml.trn1.32xlarge") None) 1%positive None.

(** What a constructor call left: the dictionary stored as
    [self.distribution] and the warnings, when it returned. *)
Definition constructed (out : result Estimator * State unit)
  : option (dict * list string) :=
  match out.1 with
  | Return self => Some (contents out.2 (self_distribution self),
                         warnings out.2)
  | Raise _ => None
  end.

End EstimatorSimulation.

(** ** What a tuning call did: the vocabulary of the statements *)

Module TuningTrace.

Import JumpStart.
Local Open Scope Z_scope.

Section Loop.
Context {W Num : Type} `{Countable Num}.
Variable X : Collaborators W Num.
Variable srv : ModelServer.
Variable self : Builder X.
Variables max_tuning_duration timeout : Z.

(** The state in which the [try] block of candidate [d] is entered. *)
Definition entering (d now : Z) (st : Sweep Num) : Sweep Num :=
  apply_candidate srv d now
    (emit (_log_delete_me "tensor_parallel_degree: " (AInt d)) st).

Definition stopped_at_deadline (d : Z) (st : Sweep Num) : Sweep Num :=
  emit [mkLog INFO "Max tuning duration reached. Tuning stopped." []]
       (emit (_log_delete_me "tensor_parallel_degree: " (AInt d)) st).

Definition attempt (d now : Z) (st : Sweep Num) (w : W) :=
  deploy_and_benchmark X self (live_env (entering d now st))
                       max_tuning_duration w.

(** The combination and the table row a successful candidate yields. *)
Definition combo_of (d : Z) (m : Num * Num * Num * Num * Num) : Combo Num :=
  let '(l, p, a, th, sd) := m in mkCombo l d p a th sd.

Definition row_of (e : gmap string string) (c : Combo Num) : Row Num :=
  mkRow (<[tuned_key srv := pretty (degree c)]> e) (p90 c)
        (avg_tokens_per_second c) (throughput_per_second c)
        (standard_deviation c).

Definition tabulate (e : gmap string string) (table : gmap Num (Row Num))
    (succ : list (Combo Num)) : gmap Num (Row Num) :=
  foldl (fun m c => <[avg_latency c := row_of e c]> m) table succ.

(** The live environment once the candidates [tried] were applied to [e]. *)
Definition env_after (e : gmap string string) (tried : list (Z * Z))
  : gmap string string :=
  match last tried with
  | Some p => <[tuned_key srv := pretty p.1]> e
  | None => e
  end.

(** The [try] block raised [e] in some state of the world. *)
Definition raised_by_step (e : exn) : Prop :=
  exists tested w1 w2,
    deploy_and_benchmark X self tested max_tuning_duration w1 = (Raise e, w2).

(** How the way the loop ended relates the candidates tried to those
    benchmarked. *)
Definition exit_shape (how : loop_exit) (candidates : list Z)
    (tried : list (Z * Z)) (succ : list (Combo Num))
    (log : list (log_record Num)) : Prop :=
  match how with
  | Exhausted =>
      tried.*1 = candidates /\ (degree <$> succ) = candidates
  | DeadlineReached =>
      (degree <$> succ) = tried.*1 /\
      (length tried < length candidates)%nat
  | Aborted e =>
      exists d rs, tried.*1 = (degree <$> succ) ++ [d] /\
                   @handlers Num srv d e = Some rs /\ rs `sublist_of` log /\
                   raised_by_step e
  | Propagated e =>
      exists d, tried.*1 = (degree <$> succ) ++ [d] /\
                @handlers Num srv d e = None /\ raised_by_step e
  end.

(** What one run of the loop from state [st] did, in terms of the
    candidates it tried and the combinations it benchmarked. *)
Record Swept (candidates : list Z) (st : Sweep Num)
    (out : loop_exit * Sweep Num * W)
    (tried : list (Z * Z)) (succ : list (Combo Num)) : Prop := {
  swept_attempted : attempted out.1.2 = attempted st ++ tried;
  swept_benchmarked : benchmarked out.1.2 = benchmarked st ++ succ;
  swept_prefix : tried.*1 `prefix_of` candidates;
  swept_checks : Forall (fun p => p.2 <= timeout) tried;
  swept_exit : exit_shape out.1.1 candidates tried succ (records out.1.2);
  swept_env : live_env out.1.2 = env_after (live_env st) tried;
  swept_best :
    best_tuned_combination out.1.2 =
    foldl (update_best X) (best_tuned_combination st) succ;
  swept_results :
    benchmark_results out.1.2 =
    tabulate (live_env st) (benchmark_results st) succ;
  swept_records : records st `prefix_of` records out.1.2
}.

End Loop.

Section Call.
Context {W Num : Type} `{Countable Num}.
Variable X : Collaborators W Num.
Variable srv : ModelServer.

(** The environment the caller finds on the returned model. *)
Definition final_env (env0 : gmap string string) (tried : list (Z * Z))
    (succ : list (Combo Num)) : gmap string string :=
  match foldl (update_best X) None succ with
  | Some best => <[tuned_key srv := pretty (degree best)]> env0
  | None => env0 ∪ env_after srv env0 tried
  end.

(** What a tuning call in [LOCAL_CONTAINER] mode did. *)
Record Tuned (self : Builder X) (max_tuning_duration : Z) (w : W)
    (r : TuneRun W Num) (how : loop_exit)
    (tried : list (Z * Z)) (succ : list (Combo Num)) : Prop := {
  tuned_exit : exit r = Some how;
  tuned_snapshot : snapshot r = Some (env (pysdk_model self));
  tuned_attempted : attempted (locals r) = tried;
  tuned_benchmarked : benchmarked (locals r) = succ;
  tuned_prefix :
    tried.*1 `prefix_of`
    _get_admissible_tensor_parallel_degrees X (js_model_config self);
  tuned_checks :
    Forall (fun p => p.2 <= (datetime_now X w).1 +
                             timedelta_seconds max_tuning_duration) tried;
  tuned_shape :
    exit_shape X srv self max_tuning_duration how
      (_get_admissible_tensor_parallel_degrees X (js_model_config self))
      tried succ (records (locals r));
  tuned_best :
    best_tuned_combination (locals r) = foldl (update_best X) None succ;
  tuned_results :
    benchmark_results (locals r) =
    tabulate srv (env (pysdk_model self)) ∅ succ;
  tuned_after : model_after r = mkModel (live_env (locals r));
  tuned_outcome :
    match how with
    | Propagated e =>
        outcome r = Raise e /\
        live_env (locals r) = env_after srv (env (pysdk_model self)) tried /\
        printed r = None
    | _ =>
        outcome r =
          Return (mkModel (final_env (env (pysdk_model self)) tried succ)) /\
        live_env (locals r) = final_env (env (pysdk_model self)) tried succ /\
        printed r =
          match foldl (update_best X) None succ with
          | Some _ => Some (tabulate srv (env (pysdk_model self)) ∅ succ)
          | None => None
          end
    end
}.

End Call.

(** The last benchmarked combination whose average latency is [k]. *)
Definition latest {Num : Type} `{EqDecision Num} (k : Num)
    (succ : list (Combo Num)) : option (Combo Num) :=
  last (filter (fun c => avg_latency c = k) succ).

End TuningTrace.

(** ** The statements about the tuning driver *)

Module TuningStatements.

Import JumpStart TuningTrace.
Local Open Scope Z_scope.

Section Statements.
Context {W Num : Type} `{Countable Num}.
Variable X : Collaborators W Num.

(** The call handed back [self.pysdk_model] as it was, called no
    collaborator, and logged the single warning. *)
Definition returned_untouched (self : Builder X) (w : W)
    (r : TuneRun W Num) : Prop :=
  outcome r = Return (pysdk_model self) /\
  model_after r = pysdk_model self /\
  live_env (locals r) = env (pysdk_model self) /\
  snapshot r = None /\
  exit r = None /\
  printed r = None /\
  attempted (locals r) = [] /\
  benchmarked (locals r) = [] /\
  world r = w /\
  records (locals r) =
    [mkLog WARNING "Tuning is only a %s capability. Returning original model."
           [AStr "Mode.LOCAL_CONTAINER"]].

(** Each [except] clause catches its class and logs. *)
Definition clauses_catch (srv : ModelServer) : Prop :=
  forall d e,
    exc_type e ∈ [LocalDeepPingException; LocalModelOutOfMemoryException;
                  LocalModelInvocationException; LocalModelLoadException;
                  SkipTuningComboException]
    \/ derives_from_Exception (exc_type e) = true ->
    exists rs, @handlers Num srv d e = Some rs /\ rs <> [].




(** What the fallback path leaves when nothing was benchmarked: every
    entry of the snapshot is back; the environment is the snapshot when no
    candidate was attempted or the snapshot held the swept variable, and
    otherwise it is the snapshot with the swept variable still set to the
    last candidate attempted. *)
Definition falls_back (srv : ModelServer) (self : Builder X)
    (r : TuneRun W Num) : Prop :=
  forall m, outcome r = Return m -> benchmarked (locals r) = [] ->
    (forall k v, env (pysdk_model self) !! k = Some v ->
                 env m !! k = Some v) /\
    (attempted (locals r) = [] \/
     is_Some (env (pysdk_model self) !! tuned_key srv) ->
     env m = env (pysdk_model self)) /\
    (forall d t, last (attempted (locals r)) = Some (d, t) ->
                 env (pysdk_model self) !! tuned_key srv = None ->
                 env m = <[tuned_key srv := pretty d]>
                           (env (pysdk_model self))).

End Statements.

End TuningStatements.

(** ** What the collaborators did during a tuning call *)

Module TuningHistory.

Import JumpStart TuningTrace.
Local Open Scope Z_scope.

(** What happened to one candidate, as the collaborators saw it: its
    deploy-and-benchmark step returned measurements, or raised, or the
    clock reading [now] taken for it was past the deadline. *)
Inductive event (Num : Type) :=
  | Benchmarked (d now : Z) (m : Num * Num * Num * Num * Num)
  | Failed (d now : Z) (e : exn)
  | Late (d now : Z).
Arguments Benchmarked {Num} d now m.
Arguments Failed {Num} d now e.
Arguments Late {Num} d now.

Section History.
Context {W Num : Type} `{Countable Num}.
Variable X : Collaborators W Num.
Variable srv : ModelServer.
Variable self : Builder X.
Variable max_tuning_duration : Z.

(** The candidates taken in order from the world [w]: for each one the
    clock is read; unless the reading is past [timeout], the candidate is
    deployed and benchmarked with the snapshot [env0] in which the swept
    variable is set to it.  The first step that raises and the first late
    reading are the last event.  Only the collaborators are consulted. *)
Fixpoint history (timeout : Z) (env0 : gmap string string)
    (candidates : list Z) (w : W) : list (event Num) * W :=
  match candidates with
  | [] => ([], w)
  | d :: rest =>
      let '(now, w) := datetime_now X w in
      if bool_decide (now > timeout) then ([Late d now], w)
      else
        match deploy_and_benchmark X self
                (<[tuned_key srv := pretty d]> env0) max_tuning_duration w with
        | (Return m, w) =>
            let '(h, w) := history timeout env0 rest w in
            (Benchmarked d now m :: h, w)
        | (Raise e, w) => ([Failed d now e], w)
        end
  end.

(** The history of a call in [LOCAL_CONTAINER] mode: the deadline is the
    first clock reading plus the budget. *)
Definition call_history (w : W) : list (event Num) * W :=
  let '(now, w) := datetime_now X w in
  history (now + timedelta_seconds max_tuning_duration)
          (env (pysdk_model self))
          (_get_admissible_tensor_parallel_degrees X (js_model_config self)) w.

End History.

Section Reading.
Context {Num : Type}.

(** The candidates that were deployed, with the clock reading of their
    deadline check. *)
Definition deployed (h : list (event Num)) : list (Z * Z) :=
  omap (fun ev => match ev with
                  | Benchmarked d now _ | Failed d now _ => Some (d, now)
                  | Late _ _ => None
                  end) h.

(** The measurements that came back, as the combinations the driver
    builds from them. *)
Definition measured (h : list (event Num)) : list (Combo Num) :=
  omap (fun ev => match ev with
                  | Benchmarked d _ m => Some (combo_of d m)
                  | _ => None
                  end) h.

(** The step that raised, if one did. *)
Definition failure (h : list (event Num)) : option (Z * exn) :=
  match last h with
  | Some (Failed d _ e) => Some (d, e)
  | _ => None
  end.

(** How the loop is left after the events [h]. *)
Definition exit_of (srv : ModelServer) (h : list (event Num)) : loop_exit :=
  match last h with
  | Some (Late _ _) => DeadlineReached
  | Some (Failed d _ e) =>
      match @handlers Num srv d e with
      | Some _ => Aborted e
      | None => Propagated e
      end
  | _ => Exhausted
  end.

(** The combination chosen by folding a comparator over a sequence:
    the first one, displaced by each later one the comparator prefers to
    the choice so far. *)
Definition fold_comparator (more_performant : Combo Num -> Combo Num -> bool)
    (cs : list (Combo Num)) : option (Combo Num) :=
  match cs with
  | [] => None
  | c :: rest =>
      Some (foldl (fun best c => if more_performant best c then c else best)
                  c rest)
  end.

End Reading.

Section Statements.
Context {W Num : Type} `{Countable Num}.
Variable X : Collaborators W Num.
Variable srv : ModelServer.
Variable self : Builder X.
Variable max_tuning_duration : Z.
Variable w : W.
Variable r : TuneRun W Num.

Local Abbreviation candidates :=
  (_get_admissible_tensor_parallel_degrees X (js_model_config self)).
Local Abbreviation snapshot0 := (env (pysdk_model self)).

(** A step that raised an exception deriving from [Exception] was the
    last thing the call asked of the collaborators: an [except] clause
    caught and logged it, the loop was left there with the candidates after
    it untried, and the caller got the model. *)
Definition failure_ends_sweep : Prop :=
  forall h w' d e,
    call_history X srv self max_tuning_duration w = (h, w') ->
    failure h = Some (d, e) ->
    derives_from_Exception (exc_type e) = true ->
    (exists rs, @handlers Num srv d e = Some rs /\ rs <> [] /\
                rs `sublist_of` records (locals r)) /\
    exit r = Some (Aborted e) /\
    attempted (locals r) = deployed h /\
    (exists t, last (attempted (locals r)) = Some (d, t)) /\
    (exists untried, candidates = (attempted (locals r)).*1 ++ untried) /\
    world r = w' /\
    outcome r = Return (model_after r).

(** A step that raised an exception not deriving from [Exception] ended
    the call with that exception. *)
Definition interrupt_leaves_call : Prop :=
  forall h w' d e,
    call_history X srv self max_tuning_duration w = (h, w') ->
    failure h = Some (d, e) ->
    derives_from_Exception (exc_type e) = false ->
    outcome r = Raise e /\ exit r = Some (Propagated e) /\ world r = w'.

(** The value applied to the returned model is the degree of the
    combination chosen by folding [_more_performant] over the measurements
    that came back, in order: no measurement after the chosen one was
    preferred to it, and for a comparator that is a strict order none at
    all is; it is the degree of a candidate that was deployed and
    benchmarked, and the rest of the environment is the snapshot. *)
Definition selects_most_performant : Prop :=
  forall h w' m,
    call_history X srv self max_tuning_duration w = (h, w') ->
    measured h <> [] ->
    outcome r = Return m ->
    exists best (i : nat),
      fold_comparator (_more_performant X) (measured h) = Some best /\
      measured h !! i = Some best /\
      (exists t, deployed h !! i = Some (degree best, t)) /\
      candidates !! i = Some (degree best) /\
      (forall (j : nat) c, (i < j)%nat -> measured h !! j = Some c ->
                           _more_performant X best c = false) /\
      ((forall a, _more_performant X a a = false) ->
       (forall a b c, _more_performant X a b = true ->
                      _more_performant X b c = true ->
                      _more_performant X a c = true) ->
       forall c, c ∈ measured h -> _more_performant X best c = false) /\
      env m = <[tuned_key srv := pretty (degree best)]> snapshot0.

(** The table handed to the report is keyed by average latency: under
    each latency it holds the row of the last measurement with that
    latency, so of two measurements with one latency the later one's row
    replaces the earlier one's and the table has fewer rows than there
    were measurements. *)
Definition table_keyed_by_latency : Prop :=
  forall h w' m,
    call_history X srv self max_tuning_duration w = (h, w') ->
    measured h <> [] ->
    outcome r = Return m ->
    exists table,
      printed r = Some table /\
      benchmark_results (locals r) = table /\
      (forall k, table !! k = row_of srv snapshot0 <$> latest k (measured h)) /\
      (size table <= length (measured h))%nat /\
      (forall (i j : nat) a b,
          (i < j)%nat ->
          measured h !! i = Some a ->
          measured h !! j = Some b ->
          avg_latency a = avg_latency b ->
          (size table < length (measured h))%nat /\
          ((forall (k : nat) c, (j < k)%nat -> measured h !! k = Some c ->
                                avg_latency c <> avg_latency b) ->
           table !! avg_latency a = Some (row_of srv snapshot0 b))).

End Statements.

End TuningHistory.

(** ** The statements about the estimator *)

Module EstimatorStatements.

Import PyTorch.
Local Open Scope Z_scope.

Section Statements.
Context {W : Type}.
Variable X : Externals W.

(** The exception raised for a dictionary naming both strategies. *)
Definition both_strategies : exn :=
  Exc ValueError
      "Cannot use both pytorchddp and smdistributed distribution options together.".

(** The base class never sets the torch-distributed launcher variable. *)
Definition base_leaves_torch_distributed_unset : Prop :=
  forall self l s config s',
    _distribution_configuration X self l s = (Return config, s') ->
    config !! LAUNCH_TORCH_DISTRIBUTED_ENV_NAME = None.

(** [distribution[key] = v] done behind the function's back. *)
Definition poke (s : State W) (l : loc) (key : string) (v : value) : State W :=
  mkState (<[l := <[key := v]> (contents s l)]> (heap s))
          (warnings s) (outside s).

(** With both [pytorchddp] and [torch_distributed] present, only the
    [pytorchddp] entry decides what is returned. *)
Definition only_pytorchddp_evaluated (self : Estimator) (d : loc)
    (s : State W) : Prop :=
  (_pytorch_distribution_configuration X self d s =
   match contents s d !! "pytorchddp" with
   | Some (VRef l) =>
       let enabled := default (VBool false) (contents s l !! "enabled") in
       if truthy s enabled then
         (Return (with_instance_type self
                    {[LAUNCH_PYTORCH_DDP_ENV_NAME := enabled]}), s)
       else _distribution_configuration X self d s
   | _ => (Raise (Exc AttributeError "object has no attribute 'get'"), s)
   end) /\
  (forall flags s', enabled_flags d s = (Return flags, s') ->
                    flags.2 = VBool false) /\
  (forall v, (enabled_flags d (poke s d "torch_distributed" v)).1 =
             (enabled_flags d s).1) /\
  (base_leaves_torch_distributed_unset ->
   forall config s',
     _pytorch_distribution_configuration X self d s = (Return config, s') ->
     config !! LAUNCH_TORCH_DISTRIBUTED_ENV_NAME = None).

End Statements.

End EstimatorStatements.

(** ** The estimator's rewrite of [pytorchddp]: statements *)

Module EstimatorRewrite.

Import PyTorch.
Local Open Scope Z_scope.

Section Statements.
Context {W : Type}.
Variable X : Externals W.

(** [validate_distribution] accepts the dictionary [given] in state [s2]
    and hands back [v] in state [s3]: a dictionary with the same entries
    (the one it was given, or a copy of it), every dictionary that existed
    being as it was. *)
Definition hands_back (a : InitArgs) (p : Prepared) (given : loc)
    (s2 : State W) (v : loc) (s3 : State W) : Prop :=
  validate_distribution X given (instance_groups (p_base p))
    _framework_name (framework_version a) (py_version a)
    (p_image_uri p) (p_kwargs p) s2 = (Return v, s3) /\
  contents s3 v = contents s2 given /\
  (forall l, is_Some (heap s2 !! l) -> heap s3 !! l = heap s2 !! l).

(** What the constructor does with a [distribution] that names
    [pytorchddp] only: the rewrite is done on [copy], a new dictionary;
    what [validate_distribution] hands back for it, [v], is what is
    stored, and it holds the caller's entries with [pytorchddp] replaced by
    [smdistributed]; every dictionary that existed before, the caller's
    among them, is as it was. *)
Definition stored_rewritten (a : InitArgs) (p : Prepared) (d : loc)
    (settings : value) (s0 s1 : State W) : Prop :=
  exists copy inner s2 v s3,
    rewrite_pytorchddp d s1 = (Return copy, s2) /\
    hands_back a p copy s2 v s3 /\
    set_distribution X a p s1 = (Return (Some v, v), s3) /\
    heap s1 !! copy = None /\
    heap s1 !! inner = None /\
    contents s3 v =
      <["smdistributed" := VRef inner]> (delete "pytorchddp" (contents s1 d)) /\
    contents s3 v !! "smdistributed" = Some (VRef inner) /\
    contents s3 v !! "pytorchddp" = None /\
    contents s3 inner = {["dataparallel" := settings]} /\
    (forall l, is_Some (heap s1 !! l) -> heap s3 !! l = heap s1 !! l) /\
    contents s3 d = contents s1 d /\
    __init__ X a s0 = epilogue X a p (Some v) v s3 /\
    (forall self s4, __init__ X a s0 = (Return self, s4) ->
                     self_distribution self = v /\ v <> d).

End Statements.

(** Helpers as [X], with [validate] in the place of
    [validate_distribution]. *)
Definition with_validator {W : Type}
    (validate : loc -> option value -> string -> option string ->
                option string -> option string -> dict -> Eff (State W) loc)
    (X : Externals W) : Externals W :=
  {| validate_version_or_image_args := validate_version_or_image_args X;
     python_deprecation_warning := python_deprecation_warning X;
     LATEST_PY2_VERSION := LATEST_PY2_VERSION X;
     validate_distribution := validate;
     profiler_config_deprecation_warning :=
       profiler_config_deprecation_warning X;
     version_at_least_1_3 := version_at_least_1_3 X;
     Framework___init__ := Framework___init__ X;
     compiler_config_validate := compiler_config_validate X;
     _distribution_configuration := _distribution_configuration X;
     TemporaryDirectory := TemporaryDirectory X;
     NamedTemporaryFile_name := NamedTemporaryFile_name X;
     os_path_isfile := os_path_isfile X;
     os_path_join := os_path_join X;
     os_environ_get := os_environ_get X;
     shutil_copy := shutil_copy X;
     urlretrieve := urlretrieve X;
     _run_clone_command := _run_clone_command X;
     OmegaConf_load := OmegaConf_load X;
     OmegaConf_merge := OmegaConf_merge X;
     OmegaConf_save := OmegaConf_save X |}.

(** Accept-all helpers whose [validate_distribution] returns a copy of
    the dictionary it is given, [dict(distribution)]. *)
Definition copying : Externals unit :=
  with_validator (fun d _ _ _ _ _ _ => c ← read d; alloc c)
                 EstimatorSimulation.benign.

End EstimatorRewrite.

(** ** Vocabulary for the estimator's remaining code *)

Module EstimatorShapes.

Import PyTorch.
Local Open Scope Z_scope.

(** A string without a ["."]. *)
Fixpoint dot_free (s : string) : bool :=
  match s with
  | EmptyString => true
  | String c rest => bool_decide (c <> "."%char) && dot_free rest
  end.

(** An instance type as SageMaker names them: [ml.<family>.<size>]. *)
Definition instance_name (family size : string) : string :=
  "ml." +:+ family +:+ "." +:+ size.

(** The device type [_setup_for_training_recipe] derives from the
    family. *)
Definition device_of_family (family : string) : string :=
  if startswith family "p" || startswith family "g" then "gpu"
  else if startswith family "trn" then "trainium"
  else "cpu".

Section Shapes.
Context {W : Type}.

(** What [overrides.setdefault(key, dict())[sub] = v] leaves: the
    dictionary under [key] is written in place when there is one, a new
    one is hung into [overrides] when there is none, and a value that is
    not a dictionary makes the item assignment fail. *)
Definition written_in_place (overrides : loc) (key sub : string) (v : value)
    (s : State W) (out : result unit * State W) : Prop :=
  match contents s overrides !! key with
  | Some (VRef l) =>
      out.1 = Return () /\
      contents out.2 l = <[sub := v]> (contents s l) /\
      (l <> overrides -> contents out.2 overrides = contents s overrides) /\
      (forall l', l' <> l -> is_Some (heap s !! l') ->
                  heap out.2 !! l' = heap s !! l')
  | Some _ =>
      (exists e, out.1 = Raise e /\ exc_type e = OtherException "TypeError") /\
      (forall l', is_Some (heap s !! l') -> heap out.2 !! l' = heap s !! l')
  | None =>
      exists spare,
        out.1 = Return () /\
        heap s !! spare = None /\
        contents out.2 overrides = <[key := VRef spare]> (contents s overrides) /\
        contents out.2 spare = {[sub := v]} /\
        (forall l', l' <> overrides -> is_Some (heap s !! l') ->
                    heap out.2 !! l' = heap s !! l')
  end.

(** The keyword arguments [__init__] has after the base constructor ran,
    against the caller's: nothing is removed or changed, [entry_point] is
    there, and [enable_sagemaker_metrics] is the only other key that may
    have been added, as [True]. *)
Definition kwargs_extended (a : InitArgs) (p : Prepared) : Prop :=
  (forall k v, kwargs a !! k = Some v -> p_kwargs p !! k = Some v) /\
  is_Some (p_kwargs p !! "entry_point") /\
  (forall k, k <> "entry_point" -> k <> "enable_sagemaker_metrics" ->
             p_kwargs p !! k = kwargs a !! k) /\
  (p_kwargs p !! "enable_sagemaker_metrics"
     = kwargs a !! "enable_sagemaker_metrics" \/
   kwargs a !! "enable_sagemaker_metrics" = None /\
   p_kwargs p !! "enable_sagemaker_metrics" = Some (VBool true)) /\
  entry_point a = Some (p_entry_point p) /\
  p_image_uri p = image_uri a.

(** The recipe's node count ends up in [kwargs] unless the caller set
    [instance_count]; nothing else changes. *)
Definition node_count_settled (recipe : Recipe) (kw kw' : dict)
    (s s' : State W) : Prop :=
  heap s' = heap s /\ outside s' = outside s /\
  (forall k v, kw !! k = Some v -> kw' !! k = Some v) /\
  is_Some (kw' !! "instance_count") /\
  (forall k, k <> "instance_count" -> kw' !! k = kw !! k) /\
  (kw !! "instance_count" = None ->
   trainer recipe = Some (kw' !! "instance_count")).

(** The per-device arguments of a recipe: the [distribution] always
    enables [torch_distributed] and never names [pytorchddp]; a GPU recipe
    adds [smdistributed] and takes its entry point from the model type, a
    Trainium recipe does neither. *)
Definition device_arguments (device_type : string) (recipe : Recipe)
    (out : string * string * string * loc) (s' : State W) : Prop :=
  let '(source_dir, entry_point, image, distribution) := out in
  (exists l, contents s' distribution !! "torch_distributed" = Some (VRef l) /\
             contents s' l = {["enabled" := VBool true]}) /\
  contents s' distribution !! "pytorchddp" = None /\
  (device_type = "gpu" /\ image = SM_TRAINING_RECIPE_GPU_IMG /\
   is_Some (contents s' distribution !! "smdistributed") /\
   (exists model_type folder, model recipe = Some (Some model_type) /\
      model_type_to_entry model_type = Some (folder, entry_point))
   \/
   device_type = "trainium" /\ image = SM_NEURONX_DIST_IMG /\
   entry_point = "training_orchestrator.py" /\
   contents s' distribution !! "smdistributed" = None).

End Shapes.

End EstimatorShapes.

(** ** Facts about the tuning loop *)

Module JumpStartFacts.

Import JumpStart TuningTrace.
Local Open Scope Z_scope.

Section Loop.
Context {W Num : Type} `{Countable Num}.
Variable X : Collaborators W Num.
Variable srv : ModelServer.
Variable self : Builder X.
Variables max_tuning_duration timeout : Z.

Local Abbreviation run := (sweep X srv self max_tuning_duration timeout).

Lemma sweep_deadline d rest st w now w1 :
  datetime_now X w = (now, w1) -> now > timeout ->
  run (d :: rest) st w = (DeadlineReached, stopped_at_deadline d st, w1).
Proof.
  intros Hnow Hlate. cbn [sweep]. rewrite Hnow.
  by rewrite bool_decide_eq_true_2.
Qed.

Lemma sweep_success d rest st w now w1 m w2 :
  datetime_now X w = (now, w1) -> now <= timeout ->
  attempt X srv self max_tuning_duration d now st w1 = (Return m, w2) ->
  run (d :: rest) st w = run rest (record_result X d m (entering srv d now st)) w2.
Proof.
  intros Hnow Hok Hm. cbn [sweep]. rewrite Hnow.
  rewrite bool_decide_eq_false_2 by lia.
  unfold attempt, entering in Hm. by rewrite Hm.
Qed.

Lemma sweep_caught d rest st w now w1 e w2 rs :
  datetime_now X w = (now, w1) -> now <= timeout ->
  attempt X srv self max_tuning_duration d now st w1 = (Raise e, w2) ->
  @handlers Num srv d e = Some rs ->
  run (d :: rest) st w = (Aborted e, emit rs (entering srv d now st), w2).
Proof.
  intros Hnow Hok Hm Hh. cbn [sweep]. rewrite Hnow.
  rewrite bool_decide_eq_false_2 by lia.
  unfold attempt, entering in Hm. rewrite Hm.
  by rewrite Hh.
Qed.

Lemma sweep_propagated d rest st w now w1 e w2 :
  datetime_now X w = (now, w1) -> now <= timeout ->
  attempt X srv self max_tuning_duration d now st w1 = (Raise e, w2) ->
  @handlers Num srv d e = None ->
  run (d :: rest) st w = (Propagated e, entering srv d now st, w2).
Proof.
  intros Hnow Hok Hm Hh. cbn [sweep]. rewrite Hnow.
  rewrite bool_decide_eq_false_2 by lia.
  unfold attempt, entering in Hm. rewrite Hm.
  by rewrite Hh.
Qed.

(** Induction following the control flow of the loop. *)
Lemma sweep_cases
    (P : list Z -> Sweep Num -> W -> loop_exit * Sweep Num * W -> Prop) :
  (forall st w, P [] st w (Exhausted, st, w)) ->
  (forall d rest st w now w1,
      datetime_now X w = (now, w1) -> now > timeout ->
      P (d :: rest) st w (DeadlineReached, stopped_at_deadline d st, w1)) ->
  (forall d rest st w now w1 m w2,
      datetime_now X w = (now, w1) -> now <= timeout ->
      attempt X srv self max_tuning_duration d now st w1 = (Return m, w2) ->
      P rest (record_result X d m (entering srv d now st)) w2
        (run rest (record_result X d m (entering srv d now st)) w2) ->
      P (d :: rest) st w
        (run rest (record_result X d m (entering srv d now st)) w2)) ->
  (forall d rest st w now w1 e w2 rs,
      datetime_now X w = (now, w1) -> now <= timeout ->
      attempt X srv self max_tuning_duration d now st w1 = (Raise e, w2) ->
      @handlers Num srv d e = Some rs ->
      P (d :: rest) st w (Aborted e, emit rs (entering srv d now st), w2)) ->
  (forall d rest st w now w1 e w2,
      datetime_now X w = (now, w1) -> now <= timeout ->
      attempt X srv self max_tuning_duration d now st w1 = (Raise e, w2) ->
      @handlers Num srv d e = None ->
      P (d :: rest) st w (Propagated e, entering srv d now st, w2)) ->
  forall candidates st w, P candidates st w (run candidates st w).
Proof.
  intros Hnil Hdead Hsucc Hcaught Hprop.
  induction candidates as [|d rest IH]; intros st w; [apply Hnil|].
  destruct (datetime_now X w) as [now w1] eqn:Hnow.
  destruct (decide (now > timeout)) as [Hlate|Hok].
  - rewrite (sweep_deadline _ _ _ _ _ _ Hnow Hlate). by eapply Hdead.
  - assert (now <= timeout) as Hle by lia.
    destruct (attempt X srv self max_tuning_duration d now st w1) as [[m|e] w2] eqn:Hm.
    + rewrite (sweep_success _ _ _ _ _ _ _ _ Hnow Hle Hm).
      eapply Hsucc; eauto.
    + destruct (@handlers Num srv d e) as [rs|] eqn:Hh.
      * rewrite (sweep_caught _ _ _ _ _ _ _ _ _ Hnow Hle Hm Hh).
        eapply Hcaught; eauto.
      * rewrite (sweep_propagated _ _ _ _ _ _ _ _ Hnow Hle Hm Hh).
        eapply Hprop; eauto.
Qed.

Lemma record_result_combo d m st :
  record_result X d m st =
  mkSweep (live_env st)
    (<[avg_latency (combo_of d m) :=
         mkRow (live_env st) (p90 (combo_of d m))
               (avg_tokens_per_second (combo_of d m))
               (throughput_per_second (combo_of d m))
               (standard_deviation (combo_of d m))]> (benchmark_results st))
    (update_best X (best_tuned_combination st) (combo_of d m))
    (records st ++
       [mkLog INFO
          "Average latency: %s, throughput/s: %s for configuration: %s"
          [ANum (avg_latency (combo_of d m));
           ANum (throughput_per_second (combo_of d m));
           AEnv (live_env st)]])
    (attempted st)
    (benchmarked st ++ [combo_of d m]).
Proof. by destruct m as [[[[l p] a] th] sd]. Qed.

Lemma degree_combo_of d (m : Num * Num * Num * Num * Num) :
  degree (combo_of d m) = d.
Proof. by destruct m as [[[[l p] a] th] sd]. Qed.

Lemma row_of_insert e v (c : Combo Num) :
  row_of srv (<[tuned_key srv := v]> e) c = row_of srv e c.
Proof. unfold row_of. by rewrite insert_insert_eq. Qed.

Lemma tabulate_insert e v (table : gmap Num (Row Num)) succ :
  tabulate srv (<[tuned_key srv := v]> e) table succ = tabulate srv e table succ.
Proof.
  unfold tabulate. revert table.
  induction succ as [|c succ IH]; intros table; [done|].
  cbn [foldl]. by rewrite row_of_insert, IH.
Qed.

Lemma env_after_cons e d now tried :
  env_after srv e ((d, now) :: tried) =
  env_after srv (<[tuned_key srv := pretty d]> e) tried.
Proof.
  unfold env_after. destruct tried as [|q tried]; [done|].
  change (last ((d, now) :: q :: tried)) with (last (q :: tried)).
  destruct (last (q :: tried)) as [p|] eqn:Hl.
  - by rewrite insert_insert_eq.
  - by apply last_None in Hl.
Qed.

Lemma sweep_swept candidates st w :
  exists tried succ, Swept X srv self max_tuning_duration timeout candidates st (run candidates st w) tried succ.
Proof.
  revert candidates st w.
  apply (sweep_cases
           (fun cs st _ out => exists tried succ, Swept X srv self max_tuning_duration timeout cs st out tried succ)).
  - intros st w. exists [], []. split; cbn; rewrite ?app_nil_r; auto.
  - intros d rest st w now w1 _ _. exists [], [].
    split; cbn; rewrite ?app_nil_r; auto.
    + apply prefix_nil.
    + split; [done|lia].
    + rewrite <- app_assoc. by apply prefix_app_r.
  - intros d rest st w now w1 m w2 _ Hle _ [tried [succ IH]].
    revert IH.
    generalize (run rest (record_result X d m (entering srv d now st)) w2).
    intros out [Ha Hb Hp Hc He Henv Hbest Hres Hrec].
    rewrite record_result_combo in Ha, Hb, Henv, Hbest, Hres, Hrec.
    cbn in Ha, Hb, Henv, Hbest, Hres, Hrec.
    exists ((d, now) :: tried), (combo_of d m :: succ). split.
    + by rewrite Ha, <- app_assoc.
    + by rewrite Hb, <- app_assoc.
    + cbn. by apply prefix_cons.
    + by constructor.
    + destruct out as [[how st'] w'].
      cbn [fst snd] in *.
      destruct how; cbn [exit_shape length] in *; rewrite !fmap_cons; cbn [fst];
        rewrite degree_combo_of.
      * destruct He as [-> <-]. by split.
      * destruct He as [-> Hlen]. split; [done|lia].
      * destruct He as (d' & rs & -> & Hh & Hs & Hr). by exists d', rs.
      * destruct He as (d' & -> & Hh & Hr). by exists d'.
    + by rewrite Henv, env_after_cons.
    + by rewrite Hbest.
    + rewrite Hres. cbn. rewrite tabulate_insert.
      unfold tabulate, row_of. by rewrite degree_combo_of.
    + etrans; [|exact Hrec]. rewrite <- !app_assoc. by apply prefix_app_r.
  - intros d rest st w now w1 e w2 rs _ Hle Hm Hh. exists [(d, now)], [].
    split; cbn; rewrite ?app_nil_r; auto.
    + apply prefix_cons, prefix_nil.
    + exists d, rs. split; [done|]. split; [done|].
      split; [by apply sublist_inserts_l|]. by eexists _, _, _.
    + rewrite <- !app_assoc. by apply prefix_app_r.
  - intros d rest st w now w1 e w2 _ Hle Hm Hh. exists [(d, now)], [].
    split; cbn; rewrite ?app_nil_r; auto.
    + apply prefix_cons, prefix_nil.
    + exists d. split; [done|]. split; [done|]. by eexists _, _, _.
    + by apply prefix_app_r.
Qed.

End Loop.

Section Call.
Context {W Num : Type} `{Countable Num}.
Variable X : Collaborators W Num.
Variable srv : ModelServer.

(** [e.update(e')] for dictionaries: [e' ∪ e]. *)
Lemma update_own_insert (e : gmap string string) k v :
  e ∪ <[k := v]> e =
  match e !! k with Some _ => e | None => <[k := v]> e end.
Proof.
  apply map_eq. intros i. rewrite lookup_union.
  destruct (decide (i = k)) as [->|Hne].
  - rewrite lookup_insert_eq. destruct (e !! k) as [x|] eqn:E.
    + by rewrite E.
    + by rewrite lookup_insert_eq.
  - rewrite lookup_insert_ne by done.
    destruct (e !! k) as [x|] eqn:E.
    + by destruct (e !! i).
    + rewrite lookup_insert_ne by done. by destruct (e !! i).
Qed.

Lemma insert_env_after (e : gmap string string) v tried :
  <[tuned_key srv := v]> (env_after srv e tried) = <[tuned_key srv := v]> e.
Proof.
  unfold env_after. destruct (last tried); [|done].
  by rewrite insert_insert_eq.
Qed.

Lemma conclude_spec env0 (st : Sweep Num) tried succ :
  live_env st = env_after srv env0 tried ->
  best_tuned_combination st = foldl (update_best X) None succ ->
  let out := conclude srv env0 st in
  live_env out.1 = final_env X srv env0 tried succ /\
  benchmark_results out.1 = benchmark_results st /\
  best_tuned_combination out.1 = best_tuned_combination st /\
  attempted out.1 = attempted st /\
  benchmarked out.1 = benchmarked st /\
  records st `prefix_of` records out.1 /\
  out.2 = match foldl (update_best X) None succ with
          | Some _ => Some (benchmark_results st)
          | None => None
          end.
Proof.
  intros Henv Hbest. unfold conclude, final_env. rewrite Hbest.
  destruct (foldl (update_best X) None succ) as [best|]; cbn.
  - rewrite Henv, insert_env_after. repeat split; auto.
    by apply prefix_app_r.
  - rewrite Henv. repeat split; auto. by apply prefix_app_r.
Qed.

Lemma tune_tuned (self : Builder X) max_tuning_duration w :
  mode self = Some LOCAL_CONTAINER ->
  exists how tried succ,
    Tuned X srv self max_tuning_duration w
          (tune X srv self max_tuning_duration w) how tried succ.
Proof.
  intros Hmode. unfold tune.
  rewrite bool_decide_eq_false_2 by (rewrite Hmode; auto).
  destruct (datetime_now X w) as [t0 w1] eqn:Hnow. cbn [fst].
  set (env0 := env (pysdk_model self)).
  set (cands := _get_admissible_tensor_parallel_degrees X _).
  set (st0 := emit _ _).
  destruct (sweep_swept X srv self max_tuning_duration
              (t0 + timedelta_seconds max_tuning_duration) cands st0 w1)
    as (tried & succ & [Ha Hb Hp Hc He Henv Hbest Hres Hrec]).
  destruct (sweep X srv self max_tuning_duration _ cands st0 w1)
    as [[how st'] w'] eqn:Hsw.
  cbn [fst snd] in *. cbn in Ha, Hb, Henv, Hbest, Hres.
  exists how, tried, succ.
  destruct (conclude_spec env0 st' tried succ Henv Hbest)
    as (C1 & C2 & C3 & C4 & C5 & C6 & C7).
  destruct (conclude srv env0 st') as [st'' table] eqn:Hc'.
  cbn [fst snd] in *.
  destruct how as [| |e|e]; split; cbn [exit snapshot locals outcome
    model_after printed world live_env env];
    rewrite ?C1, ?C2, ?C3, ?C4, ?C5, ?C7, ?Hres, ?Hnow; auto.
  cbn in He |- *. destruct He as (d & rs & ? & ? & Hs & Hr). exists d, rs.
  split; [done|]. split; [done|]. split; [|done].
  destruct C6 as [k ->]. by apply sublist_inserts_r.
Qed.

End Call.

Section Table.
Context {Num : Type} `{Countable Num}.
Variable srv : ModelServer.
Variable e : gmap string string.

Lemma tabulate_cons (table : gmap Num (Row Num)) (c : Combo Num) succ :
  tabulate srv e table (c :: succ) =
  tabulate srv e (<[avg_latency c := row_of srv e c]> table) succ.
Proof. done. Qed.

Lemma tabulate_lookup (table : gmap Num (Row Num)) succ k :
  tabulate srv e table succ !! k =
  match latest k succ with
  | Some c => Some (row_of srv e c)
  | None => table !! k
  end.
Proof.
  revert table. induction succ as [|c succ IH]; intros table; [done|].
  rewrite tabulate_cons, IH. unfold latest. rewrite filter_cons.
  destruct (decide (avg_latency c = k)) as [<-|Hne].
  - rewrite last_cons. destruct (last _); [done|].
    by rewrite lookup_insert_eq.
  - destruct (last _); [done|]. by rewrite lookup_insert_ne.
Qed.

Lemma size_insert_le (table : gmap Num (Row Num)) k v :
  (size (<[k := v]> table) <= S (size table))%nat.
Proof.
  rewrite map_size_insert. destruct (table !! k); cbn; lia.
Qed.

Lemma size_tabulate_le (table : gmap Num (Row Num)) succ :
  (size (tabulate srv e table succ) <= size table + length succ)%nat.
Proof.
  revert table. induction succ as [|c succ IH]; intros table.
  - cbn. lia.
  - rewrite tabulate_cons. specialize (IH (<[avg_latency c := row_of srv e c]> table)).
    pose proof (size_insert_le table (avg_latency c) (row_of srv e c)).
    cbn [length]. lia.
Qed.

Lemma size_tabulate_known (table : gmap Num (Row Num)) succ b :
  is_Some (table !! avg_latency b) -> b ∈ succ ->
  (size (tabulate srv e table succ) < size table + length succ)%nat.
Proof.
  revert table. induction succ as [|c succ IH]; intros table Hk Hb.
  - by apply elem_of_nil in Hb.
  - rewrite tabulate_cons. cbn [length].
    apply elem_of_cons in Hb as [->|Hb].
    + pose proof (size_tabulate_le (<[avg_latency c := row_of srv e c]> table) succ).
      rewrite map_size_insert_Some in * by done. lia.
    + assert (is_Some (<[avg_latency c := row_of srv e c]> table
                        !! avg_latency b)) as Hk'.
      { destruct (decide (avg_latency c = avg_latency b)) as [->|Hne].
        - rewrite lookup_insert_eq. eauto.
        - by rewrite lookup_insert_ne. }
      specialize (IH _ Hk' Hb).
      pose proof (size_insert_le table (avg_latency c) (row_of srv e c)). lia.
Qed.

Lemma size_tabulate_collision (table : gmap Num (Row Num)) succ
    (i j : nat) a b :
  (i < j)%nat -> succ !! i = Some a -> succ !! j = Some b ->
  avg_latency a = avg_latency b ->
  (size (tabulate srv e table succ) < size table + length succ)%nat.
Proof.
  revert table i j.
  induction succ as [|c succ IH]; intros table i j Hij Ha Hb Hab; [done|].
  rewrite tabulate_cons. cbn [length].
  pose proof (size_insert_le table (avg_latency c) (row_of srv e c)).
  destruct j as [|j]; [lia|]. cbn in Hb.
  destruct i as [|i]; cbn in Ha.
  - injection Ha as ->.
    assert (b ∈ succ) as Hin by (by eapply list_elem_of_lookup_2).
    assert (is_Some (<[avg_latency a := row_of srv e a]> table
                      !! avg_latency b)) as Hk.
    { rewrite Hab, lookup_insert_eq. eauto. }
    pose proof (size_tabulate_known _ _ _ Hk Hin). lia.
  - assert (i < j)%nat as Hij' by lia.
    specialize (IH (<[avg_latency c := row_of srv e c]> table) i j Hij' Ha Hb Hab).
    lia.
Qed.

End Table.

Section Choice.
Context {W Num : Type} `{Countable Num}.
Variable X : Collaborators W Num.

Lemma best_from_some b0 succ :
  exists b, foldl (update_best X) (Some b0) succ = Some b /\
            (b = b0 \/ b ∈ succ).
Proof.
  revert b0. induction succ as [|c succ IH]; intros b0.
  - exists b0. by split; [|left].
  - cbn [foldl update_best].
    destruct (_more_performant X b0 c).
    + destruct (IH c) as (b & Hb & Hor). exists b. split; [done|].
      right. set_solver.
    + destruct (IH b0) as (b & Hb & Hor). exists b. split; [done|].
      destruct Hor; [by left|right; set_solver].
Qed.

Lemma best_of_nonempty succ :
  succ <> [] ->
  exists b, foldl (update_best X) None succ = Some b /\ b ∈ succ.
Proof.
  destruct succ as [|c succ]; [done|]. intros _. cbn [foldl update_best].
  destruct (best_from_some c succ) as (b & Hb & Hor). exists b.
  split; [done|]. set_solver.
Qed.

Lemma best_of_nil_iff succ :
  foldl (update_best X) None succ = None <-> succ = [].
Proof.
  split; [|by intros ->].
  destruct succ as [|c succ]; [done|]. intros Hn.
  destruct (best_of_nonempty (c :: succ)) as (b & Hb & _); [done|].
  congruence.
Qed.

End Choice.

Section Handlers.
Context {Num : Type}.

Lemma handlers_catch srv d e :
  derives_from_Exception (exc_type e) = true ->
  exists rs, @handlers Num srv d e = Some rs /\ rs <> [].
Proof.
  destruct e as [c msg]. destruct c, srv; cbn; intros Hd;
    try discriminate; eexists; (split; [reflexivity|discriminate]).
Qed.

Lemma handlers_logs srv d e rs :
  @handlers Num srv d e = Some rs -> rs <> [].
Proof.
  destruct e as [c msg].
  destruct c, srv; cbn; intros Hh; try discriminate;
    injection Hh as <-; discriminate.
Qed.

Lemma handlers_miss srv d e :
  @handlers Num srv d e = None ->
  derives_from_Exception (exc_type e) = false.
Proof. destruct e as [c msg]. by destruct c, srv. Qed.

End Handlers.

End JumpStartFacts.

(** ** The tuning driver: statements *)

Module TuningClaims.

Import JumpStart TuningTrace TuningStatements JumpStartFacts.
Local Open Scope Z_scope.

Section Proofs.
Context {W Num : Type} `{Countable Num}.
Variable X : Collaborators W Num.
Variable srv : ModelServer.
Variable self : Builder X.
Variable max_tuning_duration : Z.
Variable w : W.

Local Abbreviation r := (tune X srv self max_tuning_duration w).
Local Abbreviation candidates :=
  (_get_admissible_tensor_parallel_degrees X (js_model_config self)).

Lemma tune_elsewhere :
  mode self <> Some LOCAL_CONTAINER -> returned_untouched X self w r.
Proof.
  intros Hmode. unfold tune. rewrite bool_decide_eq_true_2 by done.
  by repeat split.
Qed.

Lemma benchmarked_prefix how tried succ :
  Tuned X srv self max_tuning_duration w r how tried succ ->
  (degree <$> succ) `prefix_of` tried.*1.
Proof.
  intros T. pose proof (tuned_shape _ _ _ _ _ _ _ _ _ T) as Hs.
  destruct how; cbn in Hs.
  - destruct Hs as [-> ->]. done.
  - destruct Hs as [-> _]. done.
  - destruct Hs as (d & rs & -> & _). by apply prefix_app_r.
  - destruct Hs as (d & -> & _). by apply prefix_app_r.
Qed.




Lemma tune_falls_back :
  mode self = Some LOCAL_CONTAINER ->
  falls_back X srv self r.
Proof.
  intros Hmode m Hout Hnone.
  destruct (tune_tuned X srv self max_tuning_duration w Hmode)
    as (how & tried & succ & T).
  destruct T as [_ _ Ta Tb _ _ _ _ _ _ To].
  rewrite Tb in Hnone. subst succ. rewrite Ta.
  assert (env m = env (pysdk_model self)
                  ∪ env_after srv (env (pysdk_model self)) tried) as Henv.
  { destruct how as [| |e|e];
      try (destruct To as (To & _); rewrite To in Hout; by injection Hout as <-).
    destruct To as (To & _). congruence. }
  rewrite Henv. unfold env_after. split; [|split].
  - intros k v Hk. by rewrite lookup_union, Hk, union_Some_l.
  - intros [->|[v Hv]]; cbn.
    + apply map_union_idemp.
    + destruct (last tried) as [p|]; [|apply map_union_idemp].
      by rewrite update_own_insert, Hv.
  - intros d t -> Hk. cbn. by rewrite update_own_insert, Hk.
Qed.

End Proofs.

Section ZeroBudget.
Context {W Num : Type} `{Countable Num}.
Variable X : Collaborators W Num.


End ZeroBudget.

Lemma clauses_catch_all {Num : Type} srv : @clauses_catch Num srv.
Proof.
  intros d e [Hin|Hd]; apply handlers_catch; [|done].
  destruct e as [c msg]. cbn in Hin |- *.
  repeat (apply elem_of_cons in Hin as [->|Hin]; [done|]).
  by apply elem_of_nil in Hin.
Qed.

(** C1 (as the code behaves). A [LOCAL_CONTAINER] run whose only attempt
    fails falls back with [env.update(snapshot)]: the swept variable, which
    the snapshot did not hold, stays in the environment of the returned
    model, so that environment is not the snapshot. *)
Theorem fallback_leaves_swept_variable :
  let snapshot0 : gmap string string := {["HF_MODEL_ID" := "model"]} in
  let self := Simulation.builder (Some LOCAL_CONTAINER) snapshot0 [1; 2; 4] in
  let w := Simulation.mkWorld 0 1 [Simulation.ko 5 Simulation.Load] in
  let djl := tune_for_djl_jumpstart Simulation.collaborators self 1800 w in
  let tgi := tune_for_tgi_jumpstart Simulation.collaborators self 1800 w in
  (benchmarked (locals djl) = [] /\
   snapshot djl = Some snapshot0 /\
   snapshot0 !! "OPTION_TENSOR_PARALLEL_DEGREE" = None /\
   outcome djl =
     Return (mkModel (<["OPTION_TENSOR_PARALLEL_DEGREE" := "1"]> snapshot0)))
  /\
  (benchmarked (locals tgi) = [] /\
   snapshot tgi = Some snapshot0 /\
   snapshot0 !! "SM_NUM_GPUS" = None /\
   outcome tgi = Return (mkModel (<["SM_NUM_GPUS" := "1"]> snapshot0))).
Proof. vm_compute. by repeat split. Qed.

(** The fallback of [tune_for_djl_jumpstart] and
    [tune_for_tgi_jumpstart], in general: when the call returns with
    nothing benchmarked, every entry of the snapshot is restored; the
    environment equals the snapshot when no candidate was attempted or the
    snapshot held the swept variable, and otherwise keeps the swept
    variable at the last candidate attempted. *)
Theorem fallback_restores_snapshot_entries
    {W Num : Type} `{Countable Num} (X : Collaborators W Num)
    (self : Builder X) (max_tuning_duration : Z) (w : W) :
  mode self = Some LOCAL_CONTAINER ->
  falls_back X DJL_SERVING self
    (tune_for_djl_jumpstart X self max_tuning_duration w) /\
  falls_back X TGI self
    (tune_for_tgi_jumpstart X self max_tuning_duration w).
Proof. intros Hmode. split; by apply tune_falls_back. Qed.

Lemma fallback_restores_snapshot_entries_witness :
  let self :=
    Simulation.builder (Some LOCAL_CONTAINER)
      (<["SM_NUM_GPUS" := "8"]> {["HF_MODEL_ID" := "model"]}) [1; 2; 4] in
  let w := Simulation.mkWorld 0 1 [Simulation.ko 5 Simulation.DeepPing] in
  mode self = Some LOCAL_CONTAINER /\
  falls_back Simulation.collaborators DJL_SERVING self
    (tune_for_djl_jumpstart Simulation.collaborators self 1800 w) /\
  falls_back Simulation.collaborators TGI self
    (tune_for_tgi_jumpstart Simulation.collaborators self 1800 w).
Proof.
  split; [reflexivity|].
  apply (fallback_restores_snapshot_entries Simulation.collaborators).
  reflexivity.
Defined.





(** C6. When the builder's mode is not [LOCAL_CONTAINER],
    [tune_for_djl_jumpstart] and [tune_for_tgi_jumpstart] log that tuning
    is a [LOCAL_CONTAINER] capability and return the model at once: no
    snapshot is taken, no collaborator is called, and the environment is
    unchanged. *)
Theorem tune_outside_local_container_returns_model_unchanged
    {W Num : Type} `{Countable Num} (X : Collaborators W Num)
    (self : Builder X) (max_tuning_duration : Z) (w : W) :
  mode self <> Some LOCAL_CONTAINER ->
  returned_untouched X self w
    (tune_for_djl_jumpstart X self max_tuning_duration w) /\
  returned_untouched X self w
    (tune_for_tgi_jumpstart X self max_tuning_duration w).
Proof. intros Hmode. split; by apply tune_elsewhere. Qed.

Lemma tune_outside_local_container_returns_model_unchanged_witness :
  let self :=
    Simulation.builder (Some SAGEMAKER_ENDPOINT)
                       {["HF_MODEL_ID" := "model"]} [1; 2; 4] in
  let w := Simulation.mkWorld 0 1 [Simulation.ok 10 50] in
  mode self <> Some LOCAL_CONTAINER /\
  returned_untouched Simulation.collaborators self w
    (tune_for_djl_jumpstart Simulation.collaborators self 1800 w) /\
  returned_untouched Simulation.collaborators self w
    (tune_for_tgi_jumpstart Simulation.collaborators self 1800 w).
Proof.
  split; [discriminate|].
  apply (tune_outside_local_container_returns_model_unchanged
           Simulation.collaborators).
  discriminate.
Defined.

End TuningClaims.

(** ** The tuning driver against the history of its collaborators *)

Module HistoryFacts.

Import JumpStart TuningTrace TuningHistory JumpStartFacts.
Local Open Scope Z_scope.

Section Reading.
Context {Num : Type}.

Lemma handlers_caught srv d e rs :
  @handlers Num srv d e = Some rs ->
  derives_from_Exception (exc_type e) = true.
Proof. destruct e as [c msg]. by destruct c, srv. Qed.

Section Choice.
Variable more_performant : Combo Num -> Combo Num -> bool.

Local Abbreviation keep :=
  (fun best c : Combo Num => if more_performant best c then c else best).

(** The fold's choice sits at a position after which nothing was
    preferred to it. *)
Lemma fold_choice (c : Combo Num) (rest : list (Combo Num)) :
  exists i : nat,
    (c :: rest) !! i = Some (foldl keep c rest) /\
    forall (j : nat) c', (i < j)%nat -> (c :: rest) !! j = Some c' ->
                         more_performant (foldl keep c rest) c' = false.
Proof.
  induction rest as [|x rest IH] using rev_ind.
  - exists 0%nat. split; [done|]. intros [|j] c' Hj; [lia|done].
  - rewrite foldl_app. cbn [foldl]. destruct IH as (i & Hi & Hlater).
    destruct (more_performant (foldl keep c rest) x) eqn:Hx.
    + exists (length (c :: rest)). split.
      * by rewrite app_comm_cons, lookup_app_r, Nat.sub_diag by lia.
      * intros j c' Hj Hc'. apply lookup_lt_Some in Hc'.
        rewrite app_comm_cons, length_app in Hc'. cbn in *. lia.
    + exists i. split.
      * rewrite app_comm_cons, lookup_app_l; [done|].
        by eapply lookup_lt_Some.
      * intros j c' Hj Hc'. rewrite app_comm_cons in Hc'.
        apply lookup_app_Some in Hc' as [Hc'|[Hlen Hc']]; [by eapply Hlater|].
        apply list_lookup_singleton_Some in Hc' as [_ <-]. done.
Qed.

(** For a strict order the choice is one to which nothing is
    preferred. *)
Lemma fold_maximal (c : Combo Num) (rest : list (Combo Num)) :
  (forall a, more_performant a a = false) ->
  (forall a b c, more_performant a b = true -> more_performant b c = true ->
                 more_performant a c = true) ->
  forall c', c' ∈ c :: rest -> more_performant (foldl keep c rest) c' = false.
Proof.
  intros Hirr Htrans. induction rest as [|x rest IH] using rev_ind.
  - intros c' Hc'. apply list_elem_of_singleton in Hc' as ->. apply Hirr.
  - rewrite foldl_app. cbn [foldl]. intros c' Hc'.
    rewrite app_comm_cons, elem_of_app, list_elem_of_singleton in Hc'.
    destruct (more_performant (foldl keep c rest) x) eqn:Hx.
    + destruct Hc' as [Hc'| ->]; [|apply Hirr].
      destruct (more_performant x c') eqn:Hxc; [|done].
      specialize (IH c' Hc'). rewrite (Htrans _ _ _ Hx Hxc) in IH. done.
    + destruct Hc' as [Hc'| ->]; [by apply IH|done].
Qed.

End Choice.

Lemma exit_of_cons srv (ev : event Num) h :
  h <> [] -> exit_of srv (ev :: h) = exit_of srv h.
Proof. intros Hne. unfold exit_of. destruct h; [done|]. by rewrite last_cons_cons. Qed.

Lemma failure_cons (ev : event Num) h :
  h <> [] -> failure (ev :: h) = failure h.
Proof. intros Hne. unfold failure. destruct h; [done|]. by rewrite last_cons_cons. Qed.

End Reading.

Section Loop.
Context {W Num : Type} `{Countable Num}.
Variable X : Collaborators W Num.
Variable srv : ModelServer.
Variable self : Builder X.
Variable max_tuning_duration : Z.

(** A history is empty only for an empty candidate sequence. *)
Lemma history_nil timeout env0 candidates w w' :
  history X srv self max_tuning_duration timeout env0 candidates w = ([], w') ->
  candidates = [].
Proof.
  destruct candidates as [|d rest]; [done|]. cbn [history].
  destruct (datetime_now X w) as [now w1].
  destruct (bool_decide (now > timeout)); [done|].
  destruct (deploy_and_benchmark X self _ _ w1) as [[m|e] w2]; [|done].
  by destruct (history X srv self max_tuning_duration timeout env0 rest w2).
Qed.

(** The loop and the history agree: the world the loop ends in, the
    attempts and results it recorded and the way it was left are those of
    the history. *)
Lemma sweep_history timeout env0 candidates :
  forall st w h w',
  (forall v, <[tuned_key srv := v]> (live_env st)
             = <[tuned_key srv := v]> env0) ->
  history X srv self max_tuning_duration timeout env0 candidates w = (h, w') ->
  let out := sweep X srv self max_tuning_duration timeout candidates st w in
  out.2 = w' /\
  attempted out.1.2 = attempted st ++ deployed h /\
  benchmarked out.1.2 = benchmarked st ++ measured h /\
  out.1.1 = exit_of srv h.
Proof.
  induction candidates as [|d rest IH]; intros st w h w' Henv Hh.
  - injection Hh as <- <-. cbn. by rewrite !app_nil_r.
  - cbn [history] in Hh. cbn [sweep].
    destruct (datetime_now X w) as [now w1].
    destruct (bool_decide (now > timeout)).
    + injection Hh as <- <-. cbn. by rewrite !app_nil_r.
    + cbn [apply_candidate emit live_env]. rewrite Henv.
      destruct (deploy_and_benchmark X self _ _ w1) as [[m|e] w2].
      * destruct (history X srv self max_tuning_duration timeout env0 rest w2)
          as [h' w3] eqn:Hrest.
        injection Hh as <- <-.
        set (st1 := record_result X d m _).
        assert (forall v, <[tuned_key srv := v]> (live_env st1)
                          = <[tuned_key srv := v]> env0) as Henv1.
        { intros v. unfold st1. rewrite record_result_combo. cbn.
          rewrite ?Henv. by rewrite insert_insert_eq. }
        destruct (IH st1 w2 h' w3 Henv1 Hrest) as (Hw & Ha & Hb & He).
        cbn zeta in *. rewrite Hw, Ha, Hb, He.
        unfold st1. rewrite record_result_combo. cbn.
        rewrite <- !app_assoc. repeat split; auto.
        destruct h' as [|ev h']; [done|].
        by rewrite (exit_of_cons srv (Benchmarked d now m)).
      * injection Hh as <- <-. unfold exit_of. cbn [last].
        destruct (@handlers Num srv d e) as [rs|]; cbn; by rewrite !app_nil_r.
Qed.

Lemma tune_history w h w' :
  mode self = Some LOCAL_CONTAINER ->
  call_history X srv self max_tuning_duration w = (h, w') ->
  let r := tune X srv self max_tuning_duration w in
  attempted (locals r) = deployed h /\
  benchmarked (locals r) = measured h /\
  world r = w' /\
  exit r = Some (exit_of srv h).
Proof.
  intros Hmode Hh. unfold tune, call_history in *.
  rewrite bool_decide_eq_false_2 by (rewrite Hmode; auto).
  destruct (datetime_now X w) as [t0 w1].
  set (env0 := env (pysdk_model self)) in *.
  set (cands := _get_admissible_tensor_parallel_degrees X _) in *.
  set (st0 := emit _ _).
  assert (forall v, <[tuned_key srv := v]> (live_env st0)
                    = <[tuned_key srv := v]> env0) as Henv by done.
  destruct (sweep_history _ env0 cands st0 w1 h w' Henv Hh)
    as (Hw & Ha & Hb & He).
  destruct (sweep X srv self max_tuning_duration _ cands st0 w1)
    as [[how st'] w''].
  cbn [fst snd] in *. cbn in Ha, Hb. subst w''. rewrite <- He.
  destruct how; cbn; try (unfold conclude;
    destruct (best_tuned_combination st'); cbn); by rewrite ?Ha, ?Hb.
Qed.

Lemma failure_last (h : list (event Num)) d e :
  failure h = Some (d, e) -> exists now, last h = Some (Failed d now e).
Proof.
  unfold failure. destruct (last h) as [[| d' now e'|]|]; try done.
  intros [= -> ->]. by exists now.
Qed.

Lemma deployed_last (h : list (event Num)) d now e :
  last h = Some (Failed d now e) -> last (deployed h) = Some (d, now).
Proof.
  intros Hl. apply last_Some in Hl as [h0 ->].
  unfold deployed. rewrite omap_app. cbn. by rewrite last_snoc.
Qed.

Lemma exit_of_failure (h : list (event Num)) d e :
  failure h = Some (d, e) ->
  exit_of srv h = match @handlers Num srv d e with
                  | Some _ => Aborted e
                  | None => Propagated e
                  end.
Proof.
  intros Hf. apply failure_last in Hf as [now Hl]. unfold exit_of.
  by rewrite Hl.
Qed.

Lemma tune_failure_ends_sweep w :
  mode self = Some LOCAL_CONTAINER ->
  failure_ends_sweep X srv self max_tuning_duration w
    (tune X srv self max_tuning_duration w).
Proof.
  intros Hmode h w' d e Hh Hf Hd.
  destruct (tune_history w h w' Hmode Hh) as (Ha & Hb & Hw & He).
  destruct (handlers_catch (Num := Num) srv d e Hd) as (rs & Hrs & Hne).
  rewrite (exit_of_failure h d e Hf), Hrs in He.
  destruct (failure_last h d e Hf) as [now Hl].
  pose proof (deployed_last h d now e Hl) as Hdl.
  destruct (tune_tuned X srv self max_tuning_duration w Hmode)
    as (how & tried & succ & T).
  destruct T as [Te _ Tat _ Tp _ Ts _ _ Tm To].
  rewrite Te in He. injection He as ->. cbn in Ts.
  destruct Ts as (d' & rs' & Hs1 & Hh' & Hsub & _).
  rewrite Ha in Tat. subst tried.
  assert (d' = d) as ->.
  { apply (f_equal last) in Hs1. rewrite last_snoc, fmap_last, Hdl in Hs1.
    cbn in Hs1. congruence. }
  rewrite Hrs in Hh'. injection Hh' as <-.
  destruct To as (To & Tl & _). rewrite Ha.
  split; [by exists rs|]. split; [done|]. split; [done|].
  split; [by exists now|]. split; [exact Tp|]. split; [done|].
  by rewrite To, Tm, Tl.
Qed.

Lemma tune_interrupt_leaves_call w :
  mode self = Some LOCAL_CONTAINER ->
  interrupt_leaves_call X srv self max_tuning_duration w
    (tune X srv self max_tuning_duration w).
Proof.
  intros Hmode h w' d e Hh Hf Hd.
  destruct (tune_history w h w' Hmode Hh) as (Ha & Hb & Hw & He).
  rewrite (exit_of_failure h d e Hf) in He.
  destruct (@handlers Num srv d e) as [rs|] eqn:Hrs.
  { apply handlers_caught in Hrs. congruence. }
  destruct (tune_tuned X srv self max_tuning_duration w Hmode)
    as (how & tried & succ & T).
  destruct T as [Te _ _ _ _ _ _ _ _ _ To].
  rewrite Te in He. injection He as ->. destruct To as (To & _).
  by rewrite Te.
Qed.

End Loop.

Section Table.
Context {Num : Type} `{Countable Num}.

Lemma filter_none (P : Combo Num -> Prop) `{!forall c, Decision (P c)}
    (l : list (Combo Num)) :
  (forall (k : nat) c, l !! k = Some c -> ~ P c) -> filter P l = [].
Proof.
  induction l as [|x l IH]; intros Hl; [done|].
  rewrite filter_cons_False by (by apply (Hl 0%nat)).
  apply IH. intros k c Hk. by apply (Hl (S k)).
Qed.

(** The last measurement with a latency is the one [latest] finds. *)
Lemma latest_at (succ : list (Combo Num)) (j : nat) b :
  succ !! j = Some b ->
  (forall (k : nat) c, (j < k)%nat -> succ !! k = Some c ->
                       avg_latency c <> avg_latency b) ->
  latest (avg_latency b) succ = Some b.
Proof.
  unfold latest. revert j.
  induction succ as [|x succ IH]; intros j Hj Hlater; [done|].
  destruct j as [|j]; cbn in Hj.
  - injection Hj as ->. rewrite filter_cons_True by done.
    rewrite filter_none; [done|].
    intros k c Hk. apply (Hlater (S k)); [lia|done].
  - assert (last (filter (fun c => avg_latency c = avg_latency b) succ)
            = Some b) as Hl.
    { apply (IH j Hj). intros k c Hjk Hk. apply (Hlater (S k)); [lia|done]. }
    rewrite filter_cons. destruct (decide _); [|done].
    by rewrite last_cons, Hl.
Qed.

End Table.

Section Calls.
Context {W Num : Type} `{Countable Num}.
Variable X : Collaborators W Num.
Variable srv : ModelServer.
Variable self : Builder X.
Variable max_tuning_duration : Z.
Variable w : W.

Lemma update_best_fold (cs : list (Combo Num)) :
  foldl (update_best X) None cs = fold_comparator (_more_performant X) cs.
Proof.
  destruct cs as [|c rest]; [done|]. cbn. revert c.
  induction rest as [|x rest IH]; intros c; [done|]. cbn.
  destruct (_more_performant X c x); apply IH.
Qed.

Lemma tune_selects_most_performant :
  mode self = Some LOCAL_CONTAINER ->
  selects_most_performant X srv self max_tuning_duration w
    (tune X srv self max_tuning_duration w).
Proof.
  intros Hmode h w' m Hh Hne Hout.
  destruct (tune_history X srv self max_tuning_duration w h w' Hmode Hh)
    as (Ha & Hb & _ & _).
  destruct (tune_tuned X srv self max_tuning_duration w Hmode)
    as (how & tried & succ & T).
  pose proof (TuningClaims.benchmarked_prefix _ _ _ _ _ _ _ _ T) as Hpre.
  destruct T as [_ _ Ta Tb Tp _ _ _ _ _ To].
  rewrite Ha in Ta. rewrite Hb in Tb. subst tried succ.
  destruct (measured h) as [|c rest] eqn:Hm; [done|].
  destruct (fold_choice (_more_performant X) c rest) as (i & Hi & Hlater).
  set (best := foldl _ c rest) in *.
  assert ((deployed h).*1 !! i = Some (degree best)) as Hti.
  { eapply prefix_lookup_Some; [|exact Hpre].
    by rewrite list_lookup_fmap, Hi. }
  assert (_get_admissible_tensor_parallel_degrees X (js_model_config self)
            !! i = Some (degree best)) as Hci.
  { eapply prefix_lookup_Some; [exact Hti|exact Tp]. }
  rewrite list_lookup_fmap in Hti.
  destruct (deployed h !! i) as [[d t]|] eqn:Hp; [|done].
  cbn in Hti. injection Hti as ->.
  exists best, i. split; [done|]. split; [done|].
  split; [by exists t|]. split; [done|]. split; [done|].
  split; [intros Hirr Htrans; by apply fold_maximal|].
  assert (foldl (update_best X) None (c :: rest) = Some best) as Hbest
    by (by rewrite update_best_fold).
  destruct how as [| |e|e];
    try (destruct To as (To & _); rewrite To in Hout; injection Hout as <-;
         cbn; unfold final_env; by rewrite Hbest).
  destruct To as (To & _). congruence.
Qed.

Lemma tune_table_keyed_by_latency :
  mode self = Some LOCAL_CONTAINER ->
  table_keyed_by_latency X srv self max_tuning_duration w
    (tune X srv self max_tuning_duration w).
Proof.
  intros Hmode h w' m Hh Hne Hout.
  destruct (tune_history X srv self max_tuning_duration w h w' Hmode Hh)
    as (Ha & Hb & _ & _).
  destruct (tune_tuned X srv self max_tuning_duration w Hmode)
    as (how & tried & succ & T).
  destruct T as [_ _ _ Tb _ _ _ _ Tr _ To].
  rewrite Hb in Tb. subst succ.
  set (env0 := env (pysdk_model self)) in *.
  exists (tabulate srv env0 ∅ (measured h)).
  assert (forall k, tabulate srv env0 ∅ (measured h) !! k
                    = row_of srv env0 <$> latest k (measured h)) as Hrows.
  { intros k. rewrite tabulate_lookup, lookup_empty.
    by destruct (latest k (measured h)). }
  split; [|split; [done|split; [done|split]]].
  - destruct (best_of_nonempty X (measured h) Hne) as (best & Hbest & _).
    destruct how as [| |e|e];
      try (destruct To as (_ & _ & ->); by rewrite Hbest).
    destruct To as (To & _). congruence.
  - pose proof (size_tabulate_le srv env0 ∅ (measured h)) as Hle.
    by rewrite map_size_empty in Hle.
  - intros i j a b Hij Hi Hj Hab. split.
    + pose proof (size_tabulate_collision srv env0 ∅ (measured h)
                    i j a b Hij Hi Hj Hab) as Hlt.
      by rewrite map_size_empty in Hlt.
    + intros Hlast. by rewrite Hrows, Hab, (latest_at _ j b Hj Hlast).
Qed.

End Calls.

End HistoryFacts.

(** ** The tuning driver: statements over the history *)

Module HistoryClaims.

Import JumpStart TuningTrace TuningStatements TuningHistory.
Import JumpStartFacts HistoryFacts TuningClaims.
Local Open Scope Z_scope.

(** C2, the claim as stated fails: an exception that does not derive
    from [Exception] is caught by no [except] clause.  Here the first
    candidate is benchmarked and the deployment of the second is
    interrupted from the keyboard: the call raises [KeyboardInterrupt]
    instead of returning the model, and the model is left with the second
    candidate applied. *)
Lemma interrupt_leaves_the_tune_call :
  let snapshot0 : gmap string string := {["HF_MODEL_ID" := "model"]} in
  let self :=
    InterruptSimulation.builder (Some LOCAL_CONTAINER) snapshot0 [1; 2; 4] in
  let w := Simulation.mkWorld 0 1 [Simulation.ok 10 50] in
  let interrupt := Exc KeyboardInterrupt "" in
  let djl :=
    tune_for_djl_jumpstart InterruptSimulation.collaborators self 1800 w in
  let tgi :=
    tune_for_tgi_jumpstart InterruptSimulation.collaborators self 1800 w in
  (call_history InterruptSimulation.collaborators DJL_SERVING self 1800 w).1 =
    [Benchmarked 1 1 (50, 50, 1, 1, 0); Failed 2 12 interrupt] /\
  (outcome djl = Raise interrupt /\
   model_after djl =
     mkModel (<["OPTION_TENSOR_PARALLEL_DEGREE" := "2"]> snapshot0)) /\
  (outcome tgi = Raise interrupt /\
   model_after tgi = mkModel (<["SM_NUM_GPUS" := "2"]> snapshot0)).
Proof. vm_compute. by repeat split. Qed.

(** C2, amended. In [tune_for_djl_jumpstart] and
    [tune_for_tgi_jumpstart], each of the five named exception classes and
    any other exception deriving from [Exception] is caught by an [except]
    clause that logs.  When the deploy-and-benchmark step of a candidate
    raises such an exception, that step is the last thing the call asks of
    its collaborators: the loop is left there, the candidates deployed are
    those up to and including the failing one, the ones after it stay
    untried, and the call returns the model object instead of raising. *)
Theorem candidate_failures_end_the_sweep
    {W Num : Type} `{Countable Num} (X : Collaborators W Num)
    (self : Builder X) (max_tuning_duration : Z) (w : W) :
  mode self = Some LOCAL_CONTAINER ->
  (@clauses_catch Num DJL_SERVING /\
   failure_ends_sweep X DJL_SERVING self max_tuning_duration w
     (tune_for_djl_jumpstart X self max_tuning_duration w)) /\
  (@clauses_catch Num TGI /\
   failure_ends_sweep X TGI self max_tuning_duration w
     (tune_for_tgi_jumpstart X self max_tuning_duration w)).
Proof.
  intros Hmode.
  split; (split; [apply clauses_catch_all|by apply tune_failure_ends_sweep]).
Qed.

Lemma candidate_failures_end_the_sweep_witness :
  let snapshot0 : gmap string string := {["HF_MODEL_ID" := "model"]} in
  let self :=
    Simulation.builder (Some LOCAL_CONTAINER) snapshot0 [1; 2; 4; 8] in
  let w := Simulation.mkWorld 0 1
             [Simulation.ok 10 50; Simulation.ko 10 Simulation.OutOfMemory;
              Simulation.ok 10 20] in
  let oom := Exc LocalModelOutOfMemoryException "out of memory" in
  let h := [Benchmarked 1 1 (50, 50, 1, 1, 0); Failed 2 12 oom] in
  let w' := Simulation.mkWorld 23 1 [Simulation.ok 10 20] in
  let djl := tune_for_djl_jumpstart Simulation.collaborators self 1800 w in
  let tgi := tune_for_tgi_jumpstart Simulation.collaborators self 1800 w in
  call_history Simulation.collaborators DJL_SERVING self 1800 w = (h, w') /\
  call_history Simulation.collaborators TGI self 1800 w = (h, w') /\
  failure h = Some (2, oom) /\
  (exit djl = Some (Aborted oom) /\
   attempted (locals djl) = [(1, 1); (2, 12)] /\
   world djl = w' /\
   outcome djl =
     Return (mkModel (<["OPTION_TENSOR_PARALLEL_DEGREE" := "1"]> snapshot0)))
  /\
  (exit tgi = Some (Aborted oom) /\
   attempted (locals tgi) = [(1, 1); (2, 12)] /\
   world tgi = w' /\
   outcome tgi = Return (mkModel (<["SM_NUM_GPUS" := "1"]> snapshot0))).
Proof.
  intros snapshot0 self w oom h w' djl tgi.
  assert (call_history Simulation.collaborators DJL_SERVING self 1800 w
          = (h, w')) as Hd by (vm_compute; reflexivity).
  assert (call_history Simulation.collaborators TGI self 1800 w
          = (h, w')) as Ht by (vm_compute; reflexivity).
  assert (failure h = Some (2, oom)) as Hf by reflexivity.
  destruct (candidate_failures_end_the_sweep Simulation.collaborators
              self 1800 w eq_refl) as [[_ Sd] [_ St]].
  destruct (Sd h w' 2 oom Hd Hf eq_refl)
    as (_ & Ed & Ad & _ & _ & Wd & Od).
  destruct (St h w' 2 oom Ht Hf eq_refl)
    as (_ & Et & At & _ & _ & Wt & Ot).
  split; [exact Hd|]. split; [exact Ht|]. split; [exact Hf|].
  split; (split; [assumption|]; split; [assumption|]; split; [assumption|]).
  - etrans; [exact Od|]. vm_compute. reflexivity.
  - etrans; [exact Ot|]. vm_compute. reflexivity.
Defined.

(** C3. When a run of [tune_for_djl_jumpstart] or [tune_for_tgi_jumpstart]
    returns and at least one candidate's measurements came back, the value
    under the swept variable of the returned model is the degree of the
    combination chosen by folding [_more_performant] over those
    measurements in order: nothing measured after it was preferred to it,
    and when the comparator is a strict order nothing measured at all is.
    It is the degree of a candidate that was deployed and benchmarked, and
    every other variable is as in the snapshot. *)
Theorem returned_degree_is_best_benchmarked
    {W Num : Type} `{Countable Num} (X : Collaborators W Num)
    (self : Builder X) (max_tuning_duration : Z) (w : W) :
  mode self = Some LOCAL_CONTAINER ->
  selects_most_performant X DJL_SERVING self max_tuning_duration w
    (tune_for_djl_jumpstart X self max_tuning_duration w) /\
  selects_most_performant X TGI self max_tuning_duration w
    (tune_for_tgi_jumpstart X self max_tuning_duration w).
Proof. intros Hmode. split; by apply tune_selects_most_performant. Qed.

Lemma returned_degree_is_best_benchmarked_witness :
  let snapshot0 : gmap string string := {["HF_MODEL_ID" := "model"]} in
  let self :=
    Simulation.builder (Some LOCAL_CONTAINER) snapshot0 [1; 2; 4; 8] in
  let w := Simulation.mkWorld 0 1
             [Simulation.ok 10 50; Simulation.ok 10 30;
              Simulation.ok 10 45; Simulation.ok 10 60] in
  let h := [Benchmarked 1 1 (50, 50, 1, 1, 0);
            Benchmarked 2 12 (30, 30, 1, 1, 0);
            Benchmarked 4 23 (45, 45, 1, 1, 0);
            Benchmarked 8 34 (60, 60, 1, 1, 0)] in
  let w' := Simulation.mkWorld 45 1 [] in
  let djl := tune_for_djl_jumpstart Simulation.collaborators self 1800 w in
  let m := mkModel (<["OPTION_TENSOR_PARALLEL_DEGREE" := "2"]> snapshot0) in
  call_history Simulation.collaborators DJL_SERVING self 1800 w = (h, w') /\
  outcome djl = Return m /\
  exists best (i : nat),
    fold_comparator (_more_performant Simulation.collaborators) (measured h)
      = Some best /\
    degree best = 2 /\
    measured h !! i = Some best /\
    (forall (j : nat) c, (i < j)%nat -> measured h !! j = Some c ->
       _more_performant Simulation.collaborators best c = false) /\
    env m = <[tuned_key DJL_SERVING := pretty (degree best)]> snapshot0.
Proof.
  intros snapshot0 self w h w' djl m.
  assert (call_history Simulation.collaborators DJL_SERVING self 1800 w
          = (h, w')) as Hh by (vm_compute; reflexivity).
  assert (outcome djl = Return m) as Ho by (vm_compute; reflexivity).
  assert (measured h <> []) as Hne by discriminate.
  destruct (returned_degree_is_best_benchmarked Simulation.collaborators
              self 1800 w eq_refl) as [Sd _].
  destruct (Sd h w' m Hh Hne Ho)
    as (best & i & Hbest & Hi & _ & _ & Hlater & _ & Henv).
  split; [exact Hh|]. split; [exact Ho|].
  exists best, i. split; [exact Hbest|].
  split; [by injection Hbest as <-|]. by repeat split.
Defined.

(** C8. In [tune_for_djl_jumpstart] and [tune_for_tgi_jumpstart] the
    benchmark table, which is the one reported, is keyed by average
    latency: under each latency it holds the row of the last candidate
    measured with that latency.  So when two benchmarked candidates have
    the same average latency, the later one's row has replaced the earlier
    one's and the table has fewer rows than there were benchmarked
    candidates. *)
Theorem benchmark_table_is_keyed_by_latency
    {W Num : Type} `{Countable Num} (X : Collaborators W Num)
    (self : Builder X) (max_tuning_duration : Z) (w : W) :
  mode self = Some LOCAL_CONTAINER ->
  table_keyed_by_latency X DJL_SERVING self max_tuning_duration w
    (tune_for_djl_jumpstart X self max_tuning_duration w) /\
  table_keyed_by_latency X TGI self max_tuning_duration w
    (tune_for_tgi_jumpstart X self max_tuning_duration w).
Proof. intros Hmode. split; by apply tune_table_keyed_by_latency. Qed.

Lemma benchmark_table_is_keyed_by_latency_witness :
  let snapshot0 : gmap string string := {["HF_MODEL_ID" := "model"]} in
  let self :=
    Simulation.builder (Some LOCAL_CONTAINER) snapshot0 [1; 2; 4] in
  let w := Simulation.mkWorld 0 1
             [Simulation.ok 10 50; Simulation.ok 10 30; Simulation.ok 10 50] in
  let h := [Benchmarked 1 1 (50, 50, 1, 1, 0);
            Benchmarked 2 12 (30, 30, 1, 1, 0);
            Benchmarked 4 23 (50, 50, 1, 1, 0)] in
  let w' := Simulation.mkWorld 34 1 [] in
  let djl := tune_for_djl_jumpstart Simulation.collaborators self 1800 w in
  let m := mkModel (<["OPTION_TENSOR_PARALLEL_DEGREE" := "2"]> snapshot0) in
  call_history Simulation.collaborators DJL_SERVING self 1800 w = (h, w') /\
  outcome djl = Return m /\
  length (measured h) = 3%nat /\
  exists table,
    printed djl = Some table /\
    size table = 2%nat /\
    table !! 50 =
      Some (mkRow (<["OPTION_TENSOR_PARALLEL_DEGREE" := "4"]> snapshot0)
                  50 1 1 0) /\
    table !! 30 =
      Some (mkRow (<["OPTION_TENSOR_PARALLEL_DEGREE" := "2"]> snapshot0)
                  30 1 1 0).
Proof.
  intros snapshot0 self w h w' djl m.
  assert (call_history Simulation.collaborators DJL_SERVING self 1800 w
          = (h, w')) as Hh by (vm_compute; reflexivity).
  assert (outcome djl = Return m) as Ho by (vm_compute; reflexivity).
  assert (measured h <> []) as Hne by discriminate.
  destruct (benchmark_table_is_keyed_by_latency Simulation.collaborators
              self 1800 w eq_refl) as [Sd _].
  destruct (Sd h w' m Hh Hne Ho) as (table & Hp & Hr & Hrows & _ & Hcol).
  split; [exact Hh|]. split; [exact Ho|]. split; [reflexivity|].
  exists table. split; [exact Hp|].
  split; [|split; [by rewrite Hrows|by rewrite Hrows]].
  rewrite <- Hr. vm_compute. reflexivity.
Defined.

End HistoryClaims.

(** ** The estimator: facts and statements *)

Module EstimatorClaims.

Import PyTorch EstimatorStatements.
Local Open Scope Z_scope.

Ltac unfold_eff :=
  unfold mbind, eff_bind, mret, eff_ret, raise, when, warning in *.

(** Case analysis on every call whose result the hypothesis [H] depends on. *)
Ltac step_calls H :=
  repeat match type of H with
    | context [match ?m with _ => _ end] =>
        match m with
        | _ _ => destruct m as [[?|?] ?] eqn:?; try discriminate
        end
    | context [if ?b then _ else _] => destruct b eqn:?
    end.

Section Proofs.
Context {W : Type}.
Variable X : Externals W.

Lemma prologue_no_recipe a (s0 : State W) p s1 :
  training_recipe a = None ->
  prologue X a s0 = (Return p, s1) ->
  p_distribution p = distribution a.
Proof.
  intros Hn Hp. unfold prologue in Hp. rewrite Hn in Hp.
  unfold_eff. destruct (entry_point a) as [ep|]; [|discriminate].
  step_calls Hp; cbn in *; by injection Hp as <- _.
Qed.

Lemma epilogue_stored a p distribution stored (s : State W) self s' :
  epilogue X a p distribution stored s = (Return self, s') ->
  self_distribution self = stored.
Proof.
  intros He. unfold epilogue in He. unfold_eff.
  destruct (compiler_config a) as [[t|truth]|]; [discriminate| |].
  - destruct truth; step_calls He;
      destruct (p_kwargs p !! "profiler_config");
      step_calls He; by injection He as <- _.
  - destruct distribution as [d|]; unfold contains in He;
      step_calls He; destruct (p_kwargs p !! "profiler_config");
      step_calls He; by injection He as <- _.
Qed.

Lemma init_rejects_both a (s0 : State W) p s1 d :
  training_recipe a = None ->
  distribution a = Some d ->
  prologue X a s0 = (Return p, s1) ->
  is_Some (contents s1 d !! "pytorchddp") ->
  is_Some (contents s1 d !! "smdistributed") ->
  set_distribution X a p s1 = (Raise both_strategies, s1) /\
  __init__ X a s0 = (Raise both_strategies, s1).
Proof.
  intros Hn Hd Hp Hddp Hsmd.
  assert (p_distribution p = Some d) as Hpd
    by (by rewrite (prologue_no_recipe _ _ _ _ Hn Hp)).
  assert (set_distribution X a p s1 = (Raise both_strategies, s1)) as Hset.
  { unfold set_distribution, rewrite_pytorchddp, contains. rewrite Hpd.
    unfold_eff. by rewrite !bool_decide_eq_true_2. }
  split; [done|].
  unfold __init__. unfold mbind, eff_bind. by rewrite Hp, Hset.
Qed.

Lemma contents_poke (s : State W) d key v l :
  contents (poke s d key v) l =
  if decide (d = l) then <[key := v]> (contents s d) else contents s l.
Proof.
  unfold poke, contents at 1. cbn.
  destruct (decide (d = l)) as [->|Hne].
  - by rewrite lookup_insert_eq.
  - by rewrite lookup_insert_ne.
Qed.

Lemma contents_poke_other (s : State W) d key v l k :
  k <> key -> contents (poke s d key v) l !! k = contents s l !! k.
Proof.
  intros Hk. rewrite contents_poke. destruct (decide (d = l)) as [->|]; [|done].
  by rewrite lookup_insert_ne.
Qed.

Lemma flags_with_pytorchddp (s : State W) d v :
  contents s d !! "pytorchddp" = Some v ->
  enabled_flags d s =
  match v with
  | VRef l =>
      (Return (default (VBool false) (contents s l !! "enabled"), VBool false), s)
  | _ => (Raise (Exc AttributeError "object has no attribute 'get'"), s)
  end.
Proof.
  intros Hv. unfold enabled_flags, contains, method_get. unfold_eff.
  rewrite bool_decide_eq_true_2 by (rewrite Hv; eauto).
  rewrite Hv. cbn. by destruct v.
Qed.

Lemma configuration_with_both self d (s : State W) :
  is_Some (contents s d !! "pytorchddp") ->
  is_Some (contents s d !! "torch_distributed") ->
  only_pytorchddp_evaluated X self d s.
Proof.
  intros [v Hv] _.
  assert (_pytorch_distribution_configuration X self d s =
          match contents s d !! "pytorchddp" with
          | Some (VRef l) =>
              let enabled := default (VBool false) (contents s l !! "enabled") in
              if truthy s enabled then
                (Return (with_instance_type self
                           {[LAUNCH_PYTORCH_DDP_ENV_NAME := enabled]}), s)
              else _distribution_configuration X self d s
          | _ => (Raise (Exc AttributeError "object has no attribute 'get'"), s)
          end) as Heq.
  { unfold _pytorch_distribution_configuration. unfold mbind, eff_bind.
    rewrite (flags_with_pytorchddp _ _ _ Hv), Hv.
    destruct v; try done. cbn. unfold is_truthy.
    destruct (truthy s (default (VBool false) (contents s l !! "enabled")));
      [done|]. cbn. by destruct (_distribution_configuration X self d s) as [[?|?] ?]. }
  split; [exact Heq|]. split; [|split].
  - intros flags s'. rewrite (flags_with_pytorchddp _ _ _ Hv).
    destruct v; try discriminate. by intros [= <- _].
  - intros v'.
    rewrite (flags_with_pytorchddp s d v Hv).
    rewrite (flags_with_pytorchddp (poke s d "torch_distributed" v') d v)
      by (by rewrite contents_poke_other, Hv).
    destruct v; try done. cbn. by rewrite contents_poke_other.
  - intros Hbase config s'. rewrite Heq, Hv.
    destruct v; try discriminate. cbn.
    destruct (truthy s _).
    + intros [= <- _]. unfold with_instance_type.
      destruct (instance_type (self_base self));
        rewrite ?lookup_insert_ne by done;
        rewrite ?lookup_singleton_ne by done; by rewrite ?lookup_empty.
    + apply Hbase.
Qed.

End Proofs.

(** C7, the claim as stated fails: a construction whose [distribution]
    names both [pytorchddp] and [smdistributed] and which also passes a
    [training_recipe] does not raise.  The constructor warns that the
    argument is ignored and stores the recipe's own distribution. *)
Lemma both_strategies_with_recipe_are_accepted :
  let s0 := EstimatorSimulation.store EstimatorSimulation.both_named in
  let a :=
    EstimatorSimulation.plain_args (Some 1%positive) (Some "llama")
                                   EstimatorSimulation.trainium_kwargs in
  contents s0 1%positive !! "pytorchddp" = Some (VRef 2%positive) /\
  contents s0 1%positive !! "smdistributed" = Some (VRef 3%positive) /\
  EstimatorSimulation.constructed (__init__ EstimatorSimulation.benign a s0) =
    Some ({["torch_distributed" := VRef 5%positive]},
          ["Argument entry_point will be ignored with training_recipe.";
           "Argument distribution will be ignored with training_recipe."]).
Proof. vm_compute. by repeat split. Qed.

(** C7, amended. For every construction without a [training_recipe]
    that reaches the distribution step with a [distribution] holding both
    the [pytorchddp] and the [smdistributed] key, [PyTorch.__init__] raises
    the [ValueError] "Cannot use both pytorchddp and smdistributed
    distribution options together." there: whatever
    [validate_distribution] would do, nothing is copied, rewritten or
    stored, and the state is the one the step was entered in. *)
Theorem both_strategies_without_recipe_are_rejected
    {W : Type} (X : Externals W) (a : InitArgs) (s0 s1 : State W)
    (p : Prepared) (d : loc) :
  training_recipe a = None ->
  distribution a = Some d ->
  prologue X a s0 = (Return p, s1) ->
  is_Some (contents s1 d !! "pytorchddp") ->
  is_Some (contents s1 d !! "smdistributed") ->
  set_distribution X a p s1 = (Raise both_strategies, s1) /\
  __init__ X a s0 = (Raise both_strategies, s1).
Proof. apply init_rejects_both. Qed.

Lemma both_strategies_without_recipe_are_rejected_witness :
  let s0 := EstimatorSimulation.store EstimatorSimulation.both_named in
  let a :=
    EstimatorSimulation.plain_args (Some 1%positive) None
                                   EstimatorSimulation.trainium_kwargs in
  let p := EstimatorSimulation.prepared (Some 1%positive) in
  prologue EstimatorSimulation.benign a s0 = (Return p, s0) /\
  set_distribution EstimatorSimulation.benign a p s0 =
    (Raise both_strategies, s0) /\
  __init__ EstimatorSimulation.benign a s0 = (Raise both_strategies, s0).
Proof.
  split; [reflexivity|].
  apply (both_strategies_without_recipe_are_rejected
           EstimatorSimulation.benign _ _ _ _ 1%positive);
    try reflexivity; by eexists.
Defined.

(** C9, the claim as stated fails: a construction whose [distribution]
    names [pytorchddp] and not [smdistributed], and which also passes a
    [training_recipe], stores the recipe's distribution, which has no
    [smdistributed] entry. *)
Lemma pytorchddp_with_recipe_is_not_rewritten :
  let s0 := EstimatorSimulation.store EstimatorSimulation.pytorchddp_named in
  let a :=
    EstimatorSimulation.plain_args (Some 1%positive) (Some "llama")
                                   EstimatorSimulation.trainium_kwargs in
  contents s0 1%positive !! "pytorchddp" = Some (VRef 2%positive) /\
  contents s0 1%positive !! "smdistributed" = None /\
  (fst <$> EstimatorSimulation.constructed
             (__init__ EstimatorSimulation.benign a s0)) =
    Some {["torch_distributed" := VRef 5%positive]} /\
  ({["torch_distributed" := VRef 5%positive]} : dict) !! "smdistributed" = None.
Proof. vm_compute. by repeat split. Qed.

(** C10. In [_pytorch_distribution_configuration], when [distribution]
    holds both [pytorchddp] and [torch_distributed], only the [pytorchddp]
    branch is evaluated: [torch_distributed_enabled] stays [False], the
    outcome does not depend on what is stored under [torch_distributed],
    and the function never sets the torch-distributed launcher variable;
    what it returns is built from the [pytorchddp] flag alone or is the
    base class's configuration, so the variable is absent from it as long
    as the base class does not set it. *)
Theorem torch_distributed_ignored_beside_pytorchddp
    {W : Type} (X : Externals W) (self : Estimator) (d : loc)
    (s : State W) :
  is_Some (contents s d !! "pytorchddp") ->
  is_Some (contents s d !! "torch_distributed") ->
  only_pytorchddp_evaluated X self d s.
Proof. apply configuration_with_both. Qed.

Lemma torch_distributed_ignored_beside_pytorchddp_witness :
  let s := EstimatorSimulation.store EstimatorSimulation.both_launchers in
  contents s 1%positive !! "pytorchddp" = Some (VRef 2%positive) /\
  contents s 1%positive !! "torch_distributed" = Some (VRef 3%positive) /\
  only_pytorchddp_evaluated EstimatorSimulation.benign
    EstimatorSimulation.trained 1%positive s.
Proof.
  split; [reflexivity|]. split; [reflexivity|].
  apply (torch_distributed_ignored_beside_pytorchddp
           EstimatorSimulation.benign); by eexists.
Defined.

End EstimatorClaims.

(** ** The estimator's rewrite of [pytorchddp] *)

Module EstimatorRewriteFacts.

Import PyTorch EstimatorStatements EstimatorClaims EstimatorRewrite.
Local Open Scope Z_scope.

Section Proofs.
Context {W : Type}.
Variable X : Externals W.

Lemma rewrite_pytorchddp_copies (s1 : State W) d settings :
  contents s1 d !! "pytorchddp" = Some settings ->
  contents s1 d !! "smdistributed" = None ->
  exists copy inner s2,
    rewrite_pytorchddp d s1 = (Return copy, s2) /\
    heap s1 !! copy = None /\
    heap s1 !! inner = None /\
    is_Some (heap s2 !! copy) /\
    is_Some (heap s2 !! inner) /\
    is_Some (heap s1 !! d) /\
    contents s2 copy =
      <["smdistributed" := VRef inner]> (delete "pytorchddp" (contents s1 d)) /\
    contents s2 inner = {["dataparallel" := settings]} /\
    (forall l, is_Some (heap s1 !! l) -> heap s2 !! l = heap s1 !! l).
Proof.
  intros Hddp Hsmd.
  set (copy := fresh (dom (heap s1))).
  set (h1 := <[copy := contents s1 d]> (heap s1)).
  set (inner := fresh (dom h1)).
  assert (heap s1 !! copy = None) as Hcopy.
  { apply not_elem_of_dom. apply is_fresh. }
  assert (h1 !! inner = None) as Hinner.
  { apply not_elem_of_dom. apply is_fresh. }
  assert (copy <> inner) as Hne.
  { intros E. rewrite <- E in Hinner. unfold h1 in Hinner.
    by rewrite lookup_insert_eq in Hinner. }
  assert (heap s1 !! inner = None) as Hinner1.
  { unfold h1 in Hinner. by rewrite lookup_insert_ne in Hinner. }
  assert (is_Some (heap s1 !! d)) as Hdom.
  { unfold contents in Hddp. destruct (heap s1 !! d); [eauto|].
    cbn in Hddp. by rewrite lookup_empty in Hddp. }
  pose (s2 := mkState
     (<[copy := <["smdistributed" := VRef inner]>
                  (delete "pytorchddp" (contents s1 d))]>
        (<[inner := {["dataparallel" := settings]}]> h1))
     (warnings s1) (outside s1)).
  assert (rewrite_pytorchddp d s1 = (Return copy, s2)) as Hrw.
  { unfold rewrite_pytorchddp, contains, read, alloc, getitem, setitem, delitem.
    unfold_eff. cbn.
    rewrite bool_decide_eq_true_2 by (rewrite Hddp; eauto).
    rewrite bool_decide_eq_false_2 by (rewrite Hsmd; by intros [? ?]).
    cbn. fold copy. unfold contents at 1. cbn. rewrite lookup_insert_eq. cbn.
    rewrite Hddp. cbn. fold h1. fold inner.
    unfold contents at 1 2 3. cbn.
    rewrite (lookup_insert_ne _ inner copy) by done.
    unfold h1 at 1 2. rewrite !lookup_insert_eq. cbn.
    rewrite lookup_insert_ne by done. rewrite Hddp.
    assert (contents (mkState (<[inner := {["dataparallel" := settings]}]> h1)
                              (warnings s1) (outside s1)) copy
            = contents s1 d) as ->.
    { unfold contents at 1. cbn. rewrite lookup_insert_ne by done.
      unfold h1. by rewrite lookup_insert_eq. }
    rewrite insert_insert_eq, delete_insert_ne by done. done. }
  exists copy, inner, s2. split; [done|]. split; [done|]. split; [done|].
  split; [cbn; rewrite lookup_insert_eq; eauto|].
  split; [cbn; rewrite lookup_insert_ne, lookup_insert_eq by done; eauto|].
  split; [done|].
  split; [unfold contents at 1; cbn; by rewrite lookup_insert_eq|].
  split; [unfold contents; cbn; rewrite lookup_insert_ne by done;
          by rewrite lookup_insert_eq|].
  intros l Hl. cbn. unfold h1.
  rewrite !lookup_insert_ne; [done| | |]; intros E; rewrite <- E in Hl;
    try rewrite Hcopy in Hl; try rewrite Hinner1 in Hl; by destruct Hl.
Qed.

Lemma init_stores_rewritten a (s0 : State W) p s1 d settings :
  training_recipe a = None ->
  distribution a = Some d ->
  prologue X a s0 = (Return p, s1) ->
  contents s1 d !! "pytorchddp" = Some settings ->
  contents s1 d !! "smdistributed" = None ->
  (forall copy s2,
      rewrite_pytorchddp d s1 = (Return copy, s2) ->
      exists v s3, hands_back X a p copy s2 v s3) ->
  stored_rewritten X a p d settings s0 s1.
Proof.
  intros Hn Hd Hp Hddp Hsmd Hval.
  assert (p_distribution p = Some d) as Hpd
    by (by rewrite (prologue_no_recipe _ _ _ _ _ Hn Hp)).
  destruct (rewrite_pytorchddp_copies s1 d settings Hddp Hsmd)
    as (copy & inner & s2 & Hrw & Hcopy & Hinner & Hc2in & Hi2in & Hdom
        & Hc2 & Hi2 & Hframe2).
  destruct (Hval copy s2 Hrw) as (v & s3 & Hv & Hcv & Hframe3).
  assert (contents s3 v =
          <["smdistributed" := VRef inner]> (delete "pytorchddp" (contents s1 d)))
    as Hc3 by (by rewrite Hcv, Hc2).
  assert (forall l, is_Some (heap s1 !! l) -> heap s3 !! l = heap s1 !! l)
    as Hframe.
  { intros l Hl. rewrite <- (Hframe2 l Hl). apply Hframe3.
    by rewrite (Hframe2 l Hl). }
  assert (contents s3 d = contents s1 d) as Hd3
    by (unfold contents; by rewrite (Hframe d Hdom)).
  assert (set_distribution X a p s1 = (Return (Some v, v), s3)) as Hset.
  { unfold set_distribution. rewrite Hpd. unfold mbind, eff_bind.
    rewrite Hrw, Hv. unfold read. cbn.
    rewrite Hc3. rewrite bool_decide_eq_false_2; [done|].
    intros E. apply (f_equal (fun m => m !! "smdistributed")) in E.
    by rewrite lookup_insert_eq, lookup_empty in E. }
  exists copy, inner, s2, v, s3.
  split; [done|]. split; [done|]. split; [done|]. split; [done|].
  split; [done|]. split; [done|].
  split; [by rewrite Hc3, lookup_insert_eq|].
  split; [rewrite Hc3, lookup_insert_ne by done; by rewrite lookup_delete_eq|].
  split; [unfold contents; rewrite (Hframe3 inner Hi2in);
          fold (contents s2 inner); done|].
  split; [done|]. split; [done|].
  split; [unfold __init__; unfold mbind, eff_bind; by rewrite Hp, Hset|].
  intros self s4. unfold __init__. unfold mbind, eff_bind.
  rewrite Hp, Hset. intros He. split; [by eapply epilogue_stored|].
  intros ->. rewrite Hd3 in Hc3. 
  apply (f_equal (fun m => m !! "pytorchddp")) in Hc3.
  rewrite Hddp, lookup_insert_ne, lookup_delete_eq in Hc3 by done. done.
Qed.

End Proofs.

End EstimatorRewriteFacts.

Module EstimatorRewriteClaims.

Import PyTorch EstimatorStatements EstimatorClaims EstimatorRewrite.
Import EstimatorRewriteFacts.
Local Open Scope Z_scope.

(** C9, amended. For every construction without a [training_recipe]
    that reaches the distribution step with a [distribution] holding
    [pytorchddp] and not [smdistributed], and whose rewritten dictionary
    [validate_distribution] accepts, handing back a dictionary with the
    same entries (that dictionary or a copy of it) and leaving existing
    dictionaries alone: what [PyTorch.__init__] stores as
    [self.distribution] holds the same settings under [smdistributed] as
    [{"dataparallel": ...}] and no [pytorchddp] key, and it is not the
    caller's dictionary, which like every dictionary that existed before
    is unmodified. *)
Theorem pytorchddp_without_recipe_is_rewritten_on_a_copy
    {W : Type} (X : Externals W) (a : InitArgs) (s0 s1 : State W)
    (p : Prepared) (d : loc) (settings : value) :
  training_recipe a = None ->
  distribution a = Some d ->
  prologue X a s0 = (Return p, s1) ->
  contents s1 d !! "pytorchddp" = Some settings ->
  contents s1 d !! "smdistributed" = None ->
  (forall copy s2,
      rewrite_pytorchddp d s1 = (Return copy, s2) ->
      exists v s3, hands_back X a p copy s2 v s3) ->
  stored_rewritten X a p d settings s0 s1.
Proof. apply init_stores_rewritten. Qed.

Lemma pytorchddp_without_recipe_is_rewritten_on_a_copy_witness :
  let s0 := EstimatorSimulation.store EstimatorSimulation.pytorchddp_named in
  let a :=
    EstimatorSimulation.plain_args (Some 1%positive) None
                                   EstimatorSimulation.trainium_kwargs in
  let p := EstimatorSimulation.prepared (Some 1%positive) in
  let rewritten : dict :=
    <["smdistributed" := VRef 5%positive]> {["mpi" := VRef 3%positive]} in
  prologue copying a s0 = (Return p, s0) /\
  contents s0 1%positive = EstimatorSimulation.pytorchddp_named /\
  stored_rewritten copying a p 1%positive (VRef 2%positive) s0 s0 /\
  (exists s4,
     __init__ copying a s0 =
       (Return (mkEstimator (Some "2.0") (Some "py310")
                            (mkBaseAttrs (Some "ml.trn1.32xlarge") None)
                            6%positive None), s4) /\
     contents s4 6%positive = rewritten /\
     contents s4 5%positive = {["dataparallel" := VRef 2%positive]} /\
     contents s4 1%positive = EstimatorSimulation.pytorchddp_named) /\
  stored_rewritten EstimatorSimulation.benign a p 1%positive
                   (VRef 2%positive) s0 s0.
Proof.
  split; [reflexivity|]. split; [reflexivity|].
  split; [|split].
  - apply (pytorchddp_without_recipe_is_rewritten_on_a_copy copying);
      try reflexivity.
    intros copy s2 Hrw. vm_compute in Hrw. injection Hrw as <- <-.
    eexists _, _. split; [reflexivity|]. split; [reflexivity|].
    intros l Hl. cbn. rewrite lookup_insert_ne; [done|].
    intros <-. by destruct Hl.
  - eexists. split; [reflexivity|]. by repeat split.
  - apply (pytorchddp_without_recipe_is_rewritten_on_a_copy
             EstimatorSimulation.benign); try reflexivity.
    intros copy s2 Hrw. exists copy, s2. by repeat split.
Defined.

End EstimatorRewriteClaims.

(** ** The estimator beyond the claims *)

Module EstimatorExtras.

Import PyTorch EstimatorStatements EstimatorClaims EstimatorShapes.
Import EstimatorRewrite EstimatorRewriteFacts.
Local Open Scope Z_scope.

Section Laws.
Context {W : Type}.
Variable X : Externals W.

Lemma fresh_unused (s : State W) : heap s !! fresh (dom (heap s)) = None.
Proof. apply not_elem_of_dom, is_fresh. Qed.

Lemma fresh_not_held (s : State W) l :
  is_Some (heap s !! l) -> l <> fresh (dom (heap s)).
Proof. intros Hl ->. rewrite fresh_unused in Hl. by destruct Hl. Qed.

Lemma alloc_returns (d : dict) (s : State W) :
  exists l, alloc d s
            = (Return l, mkState (<[l := d]> (heap s)) (warnings s) (outside s))
            /\ heap s !! l = None.
Proof. exists (fresh (dom (heap s))). split; [done|apply fresh_unused]. Qed.

Lemma init_steps a (s0 : State W) p s1 distribution stored s2 :
  prologue X a s0 = (Return p, s1) ->
  set_distribution X a p s1 = (Return (distribution, stored), s2) ->
  __init__ X a s0 = epilogue X a p distribution stored s2.
Proof.
  intros Hp Hs. unfold __init__. unfold mbind, eff_bind. by rewrite Hp, Hs.
Qed.

Lemma flags_without_pytorchddp (s : State W) d :
  contents s d !! "pytorchddp" = None ->
  enabled_flags d s =
  match contents s d !! "torch_distributed" with
  | None => (Return (VBool false, VBool false), s)
  | Some (VRef l) =>
      (Return (VBool false,
               default (VBool false) (contents s l !! "enabled")), s)
  | Some _ => (Raise (Exc AttributeError "object has no attribute 'get'"), s)
  end.
Proof.
  intros Hn. unfold enabled_flags, contains, method_get. unfold_eff.
  rewrite bool_decide_eq_false_2 by (rewrite Hn; by intros [? ?]).
  destruct (contents s d !! "torch_distributed") as [v|] eqn:Hv.
  - rewrite bool_decide_eq_true_2 by eauto. cbn. rewrite ?Hv. cbn.
    by destruct v.
  - rewrite bool_decide_eq_false_2; [done|]. by intros [? ?].
Qed.

Lemma configuration_delegates self d (s : State W) :
  contents s d !! "pytorchddp" = None ->
  (contents s d !! "torch_distributed" = None \/
   exists l, contents s d !! "torch_distributed" = Some (VRef l) /\
             truthy s (default (VBool false) (contents s l !! "enabled"))
             = false) ->
  _pytorch_distribution_configuration X self d s =
  _distribution_configuration X self d s.
Proof.
  intros Hn Hcase.
  unfold _pytorch_distribution_configuration. unfold mbind, eff_bind.
  rewrite (flags_without_pytorchddp _ _ Hn).
  destruct Hcase as [->|(l & -> & Hf)]; unfold is_truthy; cbn;
    rewrite ?Hf; by destruct (_distribution_configuration X self d s)
                    as [[?|?] ?].
Qed.

End Laws.

Ltac step_alloc H l F :=
  match type of H with
  | context [alloc ?d ?s] =>
      let E := fresh "E" in
      destruct (alloc_returns d s) as (l & E & F);
      rewrite E in H; clear E; cbv beta iota in H
  end.

(** *** Strings *)

Lemma append_cons c (s t : string) : String c s +:+ t = String c (s +:+ t).
Proof. reflexivity. Qed.

Lemma append_empty_r (s : string) : s +:+ "" = s.
Proof.
  induction s as [|c s IH]; [done|]. by rewrite append_cons, IH.
Qed.

Lemma rev_app_rev_app a cur acc :
  String.rev_app (String.rev_app a cur) acc = String.rev_app cur (a +:+ acc).
Proof.
  revert cur acc. induction a as [|c a IH]; intros cur acc; [done|].
  rewrite append_cons. cbn. by rewrite IH.
Qed.

Lemma rev_rev_app_empty a : String.rev (String.rev_app a "") = a.
Proof.
  unfold String.rev. rewrite rev_app_rev_app. cbn. apply append_empty_r.
Qed.

Lemma split_dot_go_field cur a rest :
  dot_free a = true ->
  split_dot_go cur (a +:+ String "." rest) =
  String.rev (String.rev_app a cur) :: split_dot_go EmptyString rest.
Proof.
  revert cur. induction a as [|c a IH]; intros cur Hf.
  - change ("" +:+ String "." rest) with (String "." rest). cbn.
    by rewrite bool_decide_eq_true_2.
  - cbn in Hf. apply andb_true_iff in Hf as [Hc Hf].
    apply bool_decide_eq_true in Hc. rewrite append_cons. cbn.
    rewrite bool_decide_eq_false_2 by done. by rewrite IH.
Qed.

Lemma split_dot_go_last cur a :
  dot_free a = true ->
  split_dot_go cur a = [String.rev (String.rev_app a cur)].
Proof.
  revert cur. induction a as [|c a IH]; intros cur Hf; [done|].
  cbn in Hf. apply andb_true_iff in Hf as [Hc Hf].
  apply bool_decide_eq_true in Hc. cbn.
  rewrite bool_decide_eq_false_2 by done. by rewrite IH.
Qed.

Lemma split_dot_instance_name family size :
  dot_free family = true ->
  split_dot (instance_name family size) !! 1%nat = Some family.
Proof.
  intros Hf. unfold split_dot, instance_name.
  change ("ml." +:+ family +:+ "." +:+ size)
    with ("ml" +:+ String "." (family +:+ String "." size)).
  rewrite split_dot_go_field by done.
  rewrite split_dot_go_field by done. cbn. by rewrite rev_rev_app_empty.
Qed.

(** *** The constructor *)

(** Without a [training_recipe] and without an [entry_point],
    [PyTorch.__init__] raises its [ValueError] at once: no helper has been
    called and no warning logged, whatever the other arguments are. *)
Theorem constructor_without_recipe_requires_entry_point
    {W : Type} (X : Externals W) (a : InitArgs) (s0 : State W) :
  training_recipe a = None ->
  entry_point a = None ->
  __init__ X a s0 =
  (Raise (Exc ValueError
     "Argument entry_point must be set when training_recipe is not provided"),
   s0).
Proof.
  intros Hr He. unfold __init__, prologue. rewrite Hr, He. by unfold_eff.
Qed.

Lemma constructor_without_recipe_requires_entry_point_witness :
  let a := mkInitArgs None (Some "2.0") (Some "py310") None None None
                      (Some 1%positive) None None None
                      EstimatorSimulation.trainium_kwargs in
  let s0 := EstimatorSimulation.store EstimatorSimulation.both_named in
  __init__ EstimatorSimulation.benign a s0 =
  (Raise (Exc ValueError
     "Argument entry_point must be set when training_recipe is not provided"),
   s0).
Proof.
  apply (constructor_without_recipe_requires_entry_point
           EstimatorSimulation.benign); reflexivity.
Defined.

(** Without a [training_recipe], the keyword arguments that
    [PyTorch.__init__] passes on after the base constructor ran are the
    caller's, extended: no entry is removed or changed, [entry_point] is
    present, and the only other key that can have been added is
    [enable_sagemaker_metrics], as [True] and only when the caller did not
    pass it. *)
Theorem constructor_only_extends_kwargs
    {W : Type} (X : Externals W) (a : InitArgs) (s0 s1 : State W)
    (p : Prepared) :
  training_recipe a = None ->
  prologue X a s0 = (Return p, s1) ->
  kwargs_extended a p.
Proof.
  intros Hn Hp. unfold kwargs_extended. unfold prologue in Hp.
  rewrite Hn in Hp.
  unfold_eff. destruct (entry_point a) as [ep|]; [|discriminate].
  set (metrics := if bool_decide
                       (is_Some (kwargs a !! "enable_sagemaker_metrics"))
                  then _ else _) in Hp.
  assert (forall s kw s', metrics s = (Return kw, s') ->
            kw = kwargs a \/
            (kwargs a !! "enable_sagemaker_metrics" = None /\
             kw = <["enable_sagemaker_metrics" := VBool true]> (kwargs a)))
    as Hcases.
  { intros s kw s' Hkw. unfold metrics in Hkw.
    destruct (decide (is_Some (kwargs a !! "enable_sagemaker_metrics")))
      as [Hm|Hm].
    - rewrite bool_decide_eq_true_2 in Hkw by done. injection Hkw as <- _.
      by left.
    - rewrite bool_decide_eq_false_2 in Hkw by done.
      assert (kwargs a !! "enable_sagemaker_metrics" = None) as Hnone
        by (by apply eq_None_not_Some).
      destruct (framework_version a) as [v|];
        [|injection Hkw as <- _; by left].
      destruct (bool_decide (v = "")); [injection Hkw as <- _; by left|].
      destruct (version_at_least_1_3 X v s) as [[[]|?] ?];
        try discriminate; injection Hkw as <- _; [by right|by left]. }
  clearbody metrics.
  destruct (validate_version_or_image_args X (framework_version a)
              (py_version a) (image_uri a) s0) as [[[]|?] sa];
    [|discriminate].
  destruct (bool_decide (py_version a = Some "py2")); cbn in Hp;
    (destruct (metrics _) as [[kw|?] sc] eqn:Hkw; [|discriminate]);
    apply Hcases in Hkw;
    (destruct (Framework___init__ X _ _ _ _ kw sc) as [[base|?] sd];
       [|discriminate]);
    injection Hp as <- _; cbn.
  all: assert (forall k v, kwargs a !! k = Some v -> kw !! k = Some v)
         as Hkeep
         by (intros k v Hk; destruct Hkw as [->|[Hnone ->]]; [done|];
             rewrite lookup_insert_ne; [done|]; intros <-; congruence).
  all: assert (forall k, k <> "enable_sagemaker_metrics" ->
                         kw !! k = kwargs a !! k) as Hsame
         by (intros k Hk; destruct Hkw as [->|[_ ->]]; [done|];
             by rewrite lookup_insert_ne).
  all: assert (kw !! "enable_sagemaker_metrics"
                 = kwargs a !! "enable_sagemaker_metrics" \/
               kwargs a !! "enable_sagemaker_metrics" = None /\
               kw !! "enable_sagemaker_metrics" = Some (VBool true))
         as Hmetrics
         by (destruct Hkw as [->|[Hnone ->]]; [by left|right];
             by rewrite lookup_insert_eq).
  all: destruct (decide (is_Some (kw !! "entry_point"))) as [He|He];
         [rewrite bool_decide_eq_true_2 by done; repeat split; auto|].
  all: rewrite bool_decide_eq_false_2 by done.
  all: assert (kw !! "entry_point" = None) as Hnone
         by (by apply eq_None_not_Some).
  all: repeat split;
         [intros k v Hk; rewrite lookup_insert_ne; [by apply Hkeep|];
          intros <-; apply Hkeep in Hk; congruence
         |rewrite lookup_insert_eq; eauto
         |intros k Hk1 Hk2; rewrite lookup_insert_ne by done; by apply Hsame
         |by rewrite lookup_insert_ne by done].
Qed.

Lemma constructor_only_extends_kwargs_witness :
  let s0 := EstimatorSimulation.store EstimatorSimulation.pytorchddp_named in
  let a :=
    EstimatorSimulation.plain_args (Some 1%positive) None
                                   EstimatorSimulation.trainium_kwargs in
  let p := EstimatorSimulation.prepared (Some 1%positive) in
  prologue EstimatorSimulation.benign a s0 = (Return p, s0) /\
  kwargs_extended a p.
Proof.
  split; [reflexivity|].
  apply (constructor_only_extends_kwargs EstimatorSimulation.benign _
           (EstimatorSimulation.store EstimatorSimulation.pytorchddp_named)
           (EstimatorSimulation.store EstimatorSimulation.pytorchddp_named));
    reflexivity.
Defined.

(** A [distribution] naming [pytorchxla] is only accepted together with
    a [compiler_config]: without one, [PyTorch.__init__] raises a
    [ValueError] after the distribution was validated and stored. *)
Theorem pytorchxla_needs_compiler_config
    {W : Type} (X : Externals W) (a : InitArgs) (s0 s1 s2 : State W)
    (p : Prepared) (d stored : loc) :
  prologue X a s0 = (Return p, s1) ->
  set_distribution X a p s1 = (Return (Some d, stored), s2) ->
  compiler_config a = None ->
  is_Some (contents s2 d !! "pytorchxla") ->
  exists e, exc_type e = ValueError /\ __init__ X a s0 = (Raise e, s2).
Proof.
  intros Hp Hs Hc Hx. rewrite (init_steps _ _ _ _ _ _ _ _ Hp Hs).
  unfold epilogue, contains. rewrite Hc. unfold_eff.
  rewrite bool_decide_eq_true_2 by done. cbn.
  eexists. split; [|reflexivity]. done.
Qed.

Lemma pytorchxla_needs_compiler_config_witness :
  let s0 := EstimatorSimulation.store {["pytorchxla" := VRef 2%positive]} in
  let a :=
    EstimatorSimulation.plain_args (Some 1%positive) None
                                   EstimatorSimulation.trainium_kwargs in
  let p := EstimatorSimulation.prepared (Some 1%positive) in
  set_distribution EstimatorSimulation.benign a p s0 =
    (Return (Some 1%positive, 1%positive), s0) /\
  exists e, exc_type e = ValueError /\
            __init__ EstimatorSimulation.benign a s0 = (Raise e, s0).
Proof.
  split; [reflexivity|].
  apply (pytorchxla_needs_compiler_config EstimatorSimulation.benign _ _
           (EstimatorSimulation.store {["pytorchxla" := VRef 2%positive]})
           _ (EstimatorSimulation.prepared (Some 1%positive))
           1%positive 1%positive);
    try reflexivity. by eexists.
Defined.

(** A [compiler_config] that is not a [TrainingCompilerConfig] is
    rejected with a [ValueError], whatever the distribution is; the
    distribution has been validated and stored by then. *)
Theorem foreign_compiler_config_is_rejected
    {W : Type} (X : Externals W) (a : InitArgs) (s0 s1 s2 : State W)
    (p : Prepared) (distribution : option loc) (stored : loc)
    (type_name : string) :
  prologue X a s0 = (Return p, s1) ->
  set_distribution X a p s1 = (Return (distribution, stored), s2) ->
  compiler_config a = Some (NotACompilerConfig type_name) ->
  exists e, exc_type e = ValueError /\ __init__ X a s0 = (Raise e, s2).
Proof.
  intros Hp Hs Hc. rewrite (init_steps _ _ _ _ _ _ _ _ Hp Hs).
  unfold epilogue. rewrite Hc. unfold_eff.
  eexists. split; [|reflexivity]. done.
Qed.

Lemma foreign_compiler_config_is_rejected_witness :
  let s0 := EstimatorSimulation.store {["mpi" := VRef 2%positive]} in
  let a := mkInitArgs (Some "train.py") (Some "2.0") (Some "py310") None
                      None None (Some 1%positive)
                      (Some (NotACompilerConfig "dict")) None None
                      EstimatorSimulation.trainium_kwargs in
  let p := EstimatorSimulation.prepared (Some 1%positive) in
  prologue EstimatorSimulation.benign a s0 = (Return p, s0) /\
  exists e, exc_type e = ValueError /\
            __init__ EstimatorSimulation.benign a s0 = (Raise e, s0).
Proof.
  split; [reflexivity|].
  apply (foreign_compiler_config_is_rejected EstimatorSimulation.benign _ _
           (EstimatorSimulation.store {["mpi" := VRef 2%positive]})
           _ (EstimatorSimulation.prepared (Some 1%positive))
           (Some 1%positive) 1%positive "dict");
    reflexivity.
Defined.

(** [self.distribution = distribution or {}]: when no [distribution] is
    given, or the one given is empty, what is stored is a new empty
    dictionary; no dictionary that existed before is touched, and an empty
    caller dictionary is not the one stored. *)
Theorem absent_or_empty_distribution_is_stored_as_new_dictionary
    {W : Type} (X : Externals W) (a : InitArgs) (p : Prepared)
    (s1 : State W) :
  p_distribution p = None \/
  (exists d, p_distribution p = Some d /\ contents s1 d = ∅ /\
     validate_distribution X d (instance_groups (p_base p)) _framework_name
       (framework_version a) (py_version a) (p_image_uri p) (p_kwargs p) s1 =
       (Return d, s1)) ->
  exists stored s2,
    set_distribution X a p s1 = (Return (p_distribution p, stored), s2) /\
    heap s1 !! stored = None /\
    contents s2 stored = ∅ /\
    heap s2 = <[stored := ∅]> (heap s1) /\
    (forall l, is_Some (heap s1 !! l) -> heap s2 !! l = heap s1 !! l).
Proof.
  intros Hcase. pose proof (fresh_unused s1) as Hfresh.
  exists (fresh (dom (heap s1))),
         (mkState (<[fresh (dom (heap s1)) := ∅]> (heap s1))
                  (warnings s1) (outside s1)).
  split; [|split; [done|split; [|split; [done|]]]].
  - unfold set_distribution, rewrite_pytorchddp, contains, read, alloc.
    destruct Hcase as [->|(d & -> & Hempty & Hval)]; unfold_eff; [done|].
    rewrite Hempty, lookup_empty.
    rewrite bool_decide_eq_false_2 by (by intros [? ?]).
    rewrite Hval, Hempty. by rewrite bool_decide_eq_true_2.
  - unfold contents. cbn. by rewrite lookup_insert_eq.
  - intros l Hl. cbn. rewrite lookup_insert_ne; [done|].
    intros E. rewrite <- E, Hfresh in Hl. by destruct Hl.
Qed.

Lemma absent_or_empty_distribution_is_stored_as_new_dictionary_witness :
  let s1 := EstimatorSimulation.store ∅ in
  let a :=
    EstimatorSimulation.plain_args (Some 1%positive) None
                                   EstimatorSimulation.trainium_kwargs in
  let p := EstimatorSimulation.prepared (Some 1%positive) in
  contents s1 1%positive = ∅ /\
  exists stored s2,
    set_distribution EstimatorSimulation.benign a p s1 =
      (Return (Some 1%positive, stored), s2) /\
    heap s1 !! stored = None /\
    contents s2 stored = ∅ /\
    heap s2 = <[stored := ∅]> (heap s1) /\
    (forall l, is_Some (heap s1 !! l) -> heap s2 !! l = heap s1 !! l).
Proof.
  split; [reflexivity|].
  apply (absent_or_empty_distribution_is_stored_as_new_dictionary
           EstimatorSimulation.benign
           (EstimatorSimulation.plain_args (Some 1%positive) None
              EstimatorSimulation.trainium_kwargs)
           (EstimatorSimulation.prepared (Some 1%positive))
           (EstimatorSimulation.store ∅)).
  right. exists 1%positive. repeat split; reflexivity.
Defined.

(** *** The distribution configuration *)

(** With [torch_distributed] enabled and no [pytorchddp] key,
    [_pytorch_distribution_configuration] sets the torch-distributed
    launcher variable to the [enabled] flag and records the instance type
    when there is one.  Without [smdistributed] that is all it returns and
    the base class is not consulted; with [smdistributed] these entries are
    written over the base class's configuration. *)
Theorem torch_distributed_sets_launcher
    {W : Type} (X : Externals W) (self : Estimator) (d : loc)
    (s : State W) (l : loc) :
  contents s d !! "pytorchddp" = None ->
  contents s d !! "torch_distributed" = Some (VRef l) ->
  truthy s (default (VBool false) (contents s l !! "enabled")) = true ->
  let enabled := default (VBool false) (contents s l !! "enabled") in
  (contents s d !! "smdistributed" = None ->
   _pytorch_distribution_configuration X self d s =
   (Return (with_instance_type self
              {[LAUNCH_TORCH_DISTRIBUTED_ENV_NAME := enabled]}), s)) /\
  (is_Some (contents s d !! "smdistributed") ->
   _pytorch_distribution_configuration X self d s =
   match _distribution_configuration X self d s with
   | (Return config, s') =>
       (Return (with_instance_type self
                  (<[LAUNCH_TORCH_DISTRIBUTED_ENV_NAME := enabled]> config)),
        s')
   | (Raise e, s') => (Raise e, s')
   end) /\
  (forall config s',
     _pytorch_distribution_configuration X self d s = (Return config, s') ->
     config !! LAUNCH_TORCH_DISTRIBUTED_ENV_NAME = Some enabled /\
     (forall t, instance_type (self_base self) = Some t ->
                config !! INSTANCE_TYPE_ENV_NAME = Some (VStr t))).
Proof.
  intros Hn Ht Htrue enabled.
  assert (forall config,
            with_instance_type self
              (<[LAUNCH_TORCH_DISTRIBUTED_ENV_NAME := enabled]> config)
              !! LAUNCH_TORCH_DISTRIBUTED_ENV_NAME = Some enabled /\
            (forall t, instance_type (self_base self) = Some t ->
               with_instance_type self
                 (<[LAUNCH_TORCH_DISTRIBUTED_ENV_NAME := enabled]> config)
                 !! INSTANCE_TYPE_ENV_NAME = Some (VStr t))) as Hcfg.
  { intros config. unfold with_instance_type.
    destruct (instance_type (self_base self)) as [t|].
    - split; [|intros ? [= <-]; by rewrite lookup_insert_eq].
      by rewrite lookup_insert_ne, lookup_insert_eq.
    - split; [by rewrite lookup_insert_eq|done]. }
  assert (_pytorch_distribution_configuration X self d s =
          if bool_decide (is_Some (contents s d !! "smdistributed")) then
            match _distribution_configuration X self d s with
            | (Return config, s') =>
                (Return (with_instance_type self
                   (<[LAUNCH_TORCH_DISTRIBUTED_ENV_NAME := enabled]> config)),
                 s')
            | (Raise e, s') => (Raise e, s')
            end
          else
            (Return (with_instance_type self
                       {[LAUNCH_TORCH_DISTRIBUTED_ENV_NAME := enabled]}), s))
    as Heq.
  { unfold _pytorch_distribution_configuration. unfold mbind, eff_bind.
    rewrite (flags_without_pytorchddp _ _ Hn), Ht.
    unfold is_truthy, contains. cbn. rewrite Htrue.
    destruct (bool_decide (is_Some (contents s d !! "smdistributed")));
      [|done].
    by destruct (_distribution_configuration X self d s) as [[?|?] ?]. }
  split; [|split].
  - intros Hs. rewrite Heq, bool_decide_eq_false_2; [done|].
    rewrite Hs. by intros [? ?].
  - intros Hs. by rewrite Heq, bool_decide_eq_true_2.
  - intros config s'. rewrite Heq.
    destruct (bool_decide (is_Some (contents s d !! "smdistributed"))).
    + destruct (_distribution_configuration X self d s) as [[c|?] ?];
        [|discriminate]. intros [= <- _]. apply Hcfg.
    + intros [= <- _]. apply (Hcfg ∅).
Qed.

Lemma torch_distributed_sets_launcher_witness :
  let s :=
    EstimatorSimulation.store {["torch_distributed" := VRef 3%positive]} in
  _pytorch_distribution_configuration EstimatorSimulation.benign
    EstimatorSimulation.trained 1%positive s =
  (Return (<[INSTANCE_TYPE_ENV_NAME := VStr "ml.trn1.32xlarge"]>
             {[LAUNCH_TORCH_DISTRIBUTED_ENV_NAME := VBool true]}), s).
Proof.
  refine (proj1 (torch_distributed_sets_launcher EstimatorSimulation.benign
                   EstimatorSimulation.trained 1%positive
                   (EstimatorSimulation.store
                      {["torch_distributed" := VRef 3%positive]}) 3%positive
                   _ _ _) _);
    reflexivity.
Defined.

(** With neither launcher enabled (no [pytorchddp] key, and
    [torch_distributed] absent or with a falsy [enabled] flag),
    [_pytorch_distribution_configuration] is the base class's
    [_distribution_configuration]: same result, same effects, no entry
    added. *)
Theorem configuration_falls_through_to_base_class
    {W : Type} (X : Externals W) (self : Estimator) (d : loc)
    (s : State W) :
  contents s d !! "pytorchddp" = None ->
  (contents s d !! "torch_distributed" = None \/
   exists l, contents s d !! "torch_distributed" = Some (VRef l) /\
             truthy s (default (VBool false) (contents s l !! "enabled"))
             = false) ->
  _pytorch_distribution_configuration X self d s =
  _distribution_configuration X self d s.
Proof. apply configuration_delegates. Qed.

Lemma configuration_falls_through_to_base_class_witness :
  let s :=
    EstimatorSimulation.store
      (<["torch_distributed" := VRef 4%positive]>
         {["smdistributed" := VRef 2%positive]}) in
  _pytorch_distribution_configuration EstimatorSimulation.benign
    EstimatorSimulation.trained 1%positive s =
  _distribution_configuration EstimatorSimulation.benign
    EstimatorSimulation.trained 1%positive s.
Proof.
  apply (configuration_falls_through_to_base_class
           EstimatorSimulation.benign); [reflexivity|].
  right. exists 4%positive. split; reflexivity.
Defined.

(** The value under the strategy key that is looked at ([pytorchddp], or
    [torch_distributed] when there is no [pytorchddp]) must be a
    dictionary: for anything else, such as [True],
    [_pytorch_distribution_configuration] raises an [AttributeError] and
    nothing has been changed. *)
Theorem strategy_settings_must_be_dictionaries
    {W : Type} (X : Externals W) (self : Estimator) (d : loc)
    (s : State W) (v : value) :
  (contents s d !! "pytorchddp" = Some v \/
   (contents s d !! "pytorchddp" = None /\
    contents s d !! "torch_distributed" = Some v)) ->
  (forall l, v <> VRef l) ->
  exists e, exc_type e = AttributeError /\
            _pytorch_distribution_configuration X self d s = (Raise e, s).
Proof.
  intros Hcase Hv. eexists. split; [|
  unfold _pytorch_distribution_configuration; unfold mbind, eff_bind;
  destruct Hcase as [Hp|[Hn Ht]];
  [rewrite (flags_with_pytorchddp _ _ _ Hp)
  |rewrite (flags_without_pytorchddp _ _ Hn), Ht];
  (destruct v; try reflexivity; by destruct (Hv l))]. done.
Qed.

Lemma strategy_settings_must_be_dictionaries_witness :
  let s := EstimatorSimulation.store {["torch_distributed" := VBool true]} in
  exists e, exc_type e = AttributeError /\
            _pytorch_distribution_configuration EstimatorSimulation.benign
              EstimatorSimulation.trained 1%positive s = (Raise e, s).
Proof.
  apply (strategy_settings_must_be_dictionaries EstimatorSimulation.benign
           EstimatorSimulation.trained 1%positive
           (EstimatorSimulation.store {["torch_distributed" := VBool true]})
           (VBool true)).
  - right. split; reflexivity.
  - intros l E. discriminate E.
Defined.

(** A [pytorchddp] distribution that went through the constructor is
    configured by the base class.  Under the conditions of C9 (no
    [training_recipe]; [validate_distribution] hands back a dictionary with
    the entries of the rewritten one and leaves existing dictionaries
    alone), and when the caller did not also name [torch_distributed],
    [_pytorch_distribution_configuration] of what the constructor stored is
    the base class's [_distribution_configuration]: the stored dictionary
    has no [pytorchddp] key, so the PyTorch-DDP launcher branch is not
    taken for it. *)
Theorem rewritten_pytorchddp_is_configured_by_base_class
    {W : Type} (X : Externals W) (a : InitArgs) (s0 s1 : State W)
    (p : Prepared) (d : loc) (settings : value) :
  training_recipe a = None ->
  distribution a = Some d ->
  prologue X a s0 = (Return p, s1) ->
  contents s1 d !! "pytorchddp" = Some settings ->
  contents s1 d !! "smdistributed" = None ->
  contents s1 d !! "torch_distributed" = None ->
  (forall copy s2,
      rewrite_pytorchddp d s1 = (Return copy, s2) ->
      exists v s3, hands_back X a p copy s2 v s3) ->
  exists v s3,
    set_distribution X a p s1 = (Return (Some v, v), s3) /\
    contents s3 v !! "pytorchddp" = None /\
    forall self,
      _pytorch_distribution_configuration X self v s3 =
      _distribution_configuration X self v s3.
Proof.
  intros Hn Hd Hp Hddp Hsmd Htd Hval.
  destruct (init_stores_rewritten X a s0 p s1 d settings Hn Hd Hp Hddp Hsmd
              Hval)
    as (copy & inner & s2 & v & s3 & _ & _ & Hset & _ & _ & Hc & _ & Hno & _).
  exists v, s3. split; [done|]. split; [done|]. intros self.
  apply configuration_delegates; [done|]. left.
  rewrite Hc, lookup_insert_ne by done. by rewrite lookup_delete_ne.
Qed.

Lemma rewritten_pytorchddp_is_configured_by_base_class_witness :
  let s0 := EstimatorSimulation.store EstimatorSimulation.pytorchddp_named in
  let a :=
    EstimatorSimulation.plain_args (Some 1%positive) None
                                   EstimatorSimulation.trainium_kwargs in
  let p := EstimatorSimulation.prepared (Some 1%positive) in
  prologue copying a s0 = (Return p, s0) /\
  exists v s3,
    set_distribution copying a p s0 = (Return (Some v, v), s3) /\
    contents s3 v !! "pytorchddp" = None /\
    forall self,
      _pytorch_distribution_configuration copying self v s3 =
      _distribution_configuration copying self v s3.
Proof.
  split; [reflexivity|].
  apply (rewritten_pytorchddp_is_configured_by_base_class copying _
           (EstimatorSimulation.store EstimatorSimulation.pytorchddp_named)
           _ _ 1%positive (VRef 2%positive));
    try reflexivity.
  intros copy s2 Hrw. vm_compute in Hrw. injection Hrw as <- <-.
  eexists _, _. split; [reflexivity|]. split; [reflexivity|].
  intros l Hl. cbn. rewrite lookup_insert_ne; [done|].
  intros <-. by destruct Hl.
Defined.

(** *** Training recipes *)

(** For an instance type [ml.<family>.<size>],
    [_setup_for_training_recipe] derives the device type from the family
    alone: [gpu] when it starts with [p] or [g], [trainium] when it starts
    with [trn], [cpu] otherwise; the size plays no part. *)
Theorem recipe_device_type_follows_instance_family
    {W : Type} (kw : dict) (s : State W) (family size : string) :
  kw !! "instance_type" = Some (VStr (instance_name family size)) ->
  dot_free family = true ->
  device_type_of kw s = (Return (device_of_family family), s).
Proof.
  intros Hk Hf. unfold device_type_of. rewrite Hk.
  by rewrite split_dot_instance_name.
Qed.

Lemma recipe_device_type_follows_instance_family_witness :
  device_type_of EstimatorSimulation.trainium_kwargs
                 (EstimatorSimulation.store ∅) =
  (Return "trainium", EstimatorSimulation.store ∅).
Proof.
  apply (recipe_device_type_follows_instance_family
           EstimatorSimulation.trainium_kwargs (EstimatorSimulation.store ∅)
           "trn1" "32xlarge"); reflexivity.
Defined.

(** An [instance_type] without a ["."], such as the local-mode names
    [local] and [local_gpu], is not reported as unsupported: the
    [split(".")[1]] in [_setup_for_training_recipe] raises an
    [IndexError]. *)
Theorem recipe_instance_type_without_dot_raises_IndexError
    {W : Type} (kw : dict) (s : State W) (t : string) :
  kw !! "instance_type" = Some (VStr t) ->
  dot_free t = true ->
  exists e, exc_type e = IndexError /\ device_type_of kw s = (Raise e, s).
Proof.
  intros Hk Hf. unfold device_type_of, split_dot.
  rewrite Hk, split_dot_go_last by done. cbn.
  eexists. split; [|reflexivity]. done.
Qed.

Lemma recipe_instance_type_without_dot_raises_IndexError_witness :
  exists e, exc_type e = IndexError /\
            device_type_of {["instance_type" := VStr "local_gpu"]}
                           (EstimatorSimulation.store ∅) =
            (Raise e, EstimatorSimulation.store ∅).
Proof.
  apply (recipe_instance_type_without_dot_raises_IndexError
           {["instance_type" := VStr "local_gpu"]}
           (EstimatorSimulation.store ∅) "local_gpu"); reflexivity.
Defined.

(** When the [trainer] checks of [_setup_for_training_recipe] pass,
    [kwargs] holds an [instance_count]: the caller's when one was passed
    (the recipe's [num_nodes] is then ignored), the recipe's [num_nodes]
    otherwise.  No other entry of [kwargs] is changed and no dictionary is
    touched. *)
Theorem recipe_node_count_fills_instance_count
    {W : Type} (recipe : Recipe) (kw kw' : dict) (s s' : State W) :
  node_count recipe kw s = (Return kw', s') ->
  node_count_settled recipe kw kw' s s'.
Proof.
  unfold node_count, node_count_settled. unfold_eff.
  destruct (trainer recipe) as [nn|]; [|discriminate].
  destruct (decide (is_Some (kw !! "instance_count"))) as [Hc|Hc].
  - rewrite !bool_decide_eq_true_2 by done. cbn.
    destruct (bool_decide (is_Some nn)); intros [= <- <-]; cbn;
      repeat split; auto; intros E; rewrite E in Hc; by destruct Hc.
  - rewrite !bool_decide_eq_false_2 by done. cbn.
    assert (kw !! "instance_count" = None) as Hnone
      by (by apply eq_None_not_Some).
    destruct nn as [n|]; [|discriminate]. intros [= <- <-].
    repeat split; auto.
    + intros k v Hk. rewrite lookup_insert_ne; [done|]. intros <-. congruence.
    + rewrite lookup_insert_eq. eauto.
    + intros k Hk. by rewrite lookup_insert_ne.
    + intros _. by rewrite lookup_insert_eq.
Qed.

Lemma recipe_node_count_fills_instance_count_witness :
  let recipe := mkRecipe (Some (Some (VInt 2))) (Some (Some "llama_v3")) None in
  let kw := EstimatorSimulation.trainium_kwargs in
  let s := EstimatorSimulation.store ∅ in
  node_count recipe kw s = (Return (<["instance_count" := VInt 2]> kw), s) /\
  node_count_settled recipe kw (<["instance_count" := VInt 2]> kw) s s.
Proof.
  split; [reflexivity|].
  apply (recipe_node_count_fills_instance_count
           (mkRecipe (Some (Some (VInt 2))) (Some (Some "llama_v3")) None)
           EstimatorSimulation.trainium_kwargs _
           (EstimatorSimulation.store ∅) (EstimatorSimulation.store ∅)).
  reflexivity.
Defined.

(** The per-device arguments [_setup_for_training_recipe] builds: only
    [gpu] and [trainium] get any; the distribution is a new dictionary
    that enables [torch_distributed] and never names [pytorchddp]; a GPU
    recipe takes the GPU image, adds [smdistributed] and needs a supported
    [model_type], a Trainium recipe takes the Neuron image and
    [training_orchestrator.py] and has no [smdistributed]. *)
Theorem recipe_device_arguments
    {W : Type} (X : Externals W) (device_type train_dir : string)
    (recipe : Recipe) (s s' : State W)
    (out : string * string * string * loc) :
  device_args X device_type train_dir recipe s = (Return out, s') ->
  device_arguments device_type recipe out s'.
Proof.
  unfold device_args, environ_or, device_arguments. unfold_eff.
  destruct (bool_decide (device_type = "gpu")) eqn:Hg.
  - apply bool_decide_eq_true in Hg. subst device_type.
    intros H.
    destruct (os_environ_get X _ s) as [[a|?] s0]; [|discriminate].
    destruct (_run_clone_command X _ _ s0) as [[?|?] s1]; [|discriminate].
    destruct (model recipe) as [[mt|]|]; try discriminate.
    destruct (model_type_to_entry mt) as [[folder script]|] eqn:Hm;
      [|discriminate].
    step_alloc H l0 F0. step_alloc H l1 F1. step_alloc H l2 F2.
    step_alloc H l3 F3. step_alloc H l4 F4.
    injection H as <- <-. unfold contents. simpl heap.
    assert (l4 <> l3) as N
      by (intros ->; simpl in F4; by rewrite lookup_insert_eq in F4).
    rewrite lookup_insert_eq. simpl default.
    split; [|split].
    + exists l3. split; [by simplify_map_eq|].
      by rewrite lookup_insert_ne, lookup_insert_eq.
    + by simplify_map_eq.
    + left. split; [done|]. split; [done|].
      split; [by simplify_map_eq|]. by exists mt, folder.
  - destruct (bool_decide (device_type = "trainium")) eqn:Ht; [|discriminate].
    apply bool_decide_eq_true in Ht. subst device_type.
    intros H.
    destruct (_run_clone_command X _ _ s) as [[?|?] s1]; [|discriminate].
    step_alloc H l0 F0. step_alloc H l1 F1.
    injection H as <- <-. unfold contents. simpl heap.
    assert (l1 <> l0) as N
      by (intros ->; simpl in F1; by rewrite lookup_insert_eq in F1).
    rewrite lookup_insert_eq. simpl default.
    split; [|split].
    + exists l0. split; [by simplify_map_eq|].
      by rewrite lookup_insert_ne, lookup_insert_eq.
    + by simplify_map_eq.
    + right. repeat split; auto.
Qed.

Lemma recipe_device_arguments_witness :
  let recipe := mkRecipe (Some (Some (VInt 2))) (Some (Some "llama_v3")) None in
  let s := EstimatorSimulation.store ∅ in
  exists out s',
    device_args EstimatorSimulation.benign "gpu" "/tmp/training_" recipe s
      = (Return out, s') /\
    device_arguments "gpu" recipe out s'.
Proof.
  eexists _, _. split; [reflexivity|].
  apply (recipe_device_arguments EstimatorSimulation.benign "gpu"
           "/tmp/training_" _ (EstimatorSimulation.store ∅)).
  reflexivity.
Defined.

(** [recipe_overrides.setdefault(key, dict())[sub] = v], as
    [_setup_for_training_recipe] does for [run]/[results_dir] and
    [exp_manager]/[exp_dir], writes into the caller's dictionaries: a
    dictionary the caller put under [key] gets [sub] set (overwriting the
    caller's value for it, keeping its other entries), and when [key] is
    missing a new dictionary holding only [sub] is added to the caller's
    [recipe_overrides].  A non-dictionary under [key] makes the assignment
    fail.  No other dictionary is changed. *)
Theorem recipe_overrides_are_written_in_place
    {W : Type} (overrides : loc) (key sub : string) (v : value)
    (s : State W) :
  is_Some (heap s !! overrides) ->
  written_in_place overrides key sub v s
    (setdefault_setitem overrides key sub v s).
Proof.
  intros Ho. pose proof (fresh_not_held s overrides Ho) as Hne.
  pose proof (fresh_unused s) as Hf.
  assert (forall l', is_Some (heap s !! l') -> l' <> fresh (dom (heap s)))
    as Hold by apply fresh_not_held.
  set (spare := fresh (dom (heap s))) in *.
  set (s1 := mkState (<[spare := ∅]> (heap s)) (warnings s) (outside s)).
  assert (contents s1 overrides = contents s overrides) as Hc1
    by (unfold contents, s1; cbn; by rewrite lookup_insert_ne).
  assert (setdefault_setitem overrides key sub v s =
          match contents s overrides !! key with
          | Some (VRef l) => setitem l sub v s1
          | Some _ =>
              (Raise (Exc (OtherException "TypeError")
                          "object does not support item assignment"), s1)
          | None =>
              (setitem overrides key (VRef spare);; setitem spare sub v) s1
          end) as ->.
  { unfold setdefault_setitem, alloc, read. unfold mbind at 1 2, eff_bind.
    fold spare. fold s1. rewrite Hc1.
    by destruct (contents s overrides !! key) as [[| | | |l]|]. }
  unfold written_in_place.
  destruct (contents s overrides !! key) as [[| | | |l]|] eqn:Hk.
  1-4: split; [eexists; split; [reflexivity|done]|];
       intros l' Hl'; simpl; rewrite lookup_insert_ne; [done|];
       intros E; by apply (Hold l').
  - unfold setitem, contents. simpl. split; [done|].
    rewrite (lookup_insert_eq _ l). simpl. split; [|split].
    + f_equal. destruct (decide (l = spare)) as [->|Hl].
      * by rewrite lookup_insert_eq, Hf.
      * by rewrite lookup_insert_ne.
    + intros Hlo. by rewrite !lookup_insert_ne by done.
    + intros l' Hl' Hin. rewrite lookup_insert_ne by done.
      rewrite lookup_insert_ne; [done|]. intros E. by apply (Hold l').
  - exists spare. unfold setitem. unfold_eff. unfold contents. simpl.
    assert (spare <> overrides) as Hne' by done.
    assert (<[spare:=∅]> (heap s) !! overrides = heap s !! overrides) as E1
      by (by rewrite lookup_insert_ne).
    rewrite E1.
    split; [done|]. split; [done|].
    split; [|split].
    + rewrite lookup_insert_ne by done. by rewrite lookup_insert_eq.
    + by rewrite lookup_insert_eq, lookup_insert_ne, lookup_insert_eq.
    + intros l' Hl' Hin. rewrite lookup_insert_ne.
      2: { intros E. by apply (Hold l'). }
      rewrite lookup_insert_ne by done.
      rewrite lookup_insert_ne; [done|]. intros E. by apply (Hold l').
Qed.

Lemma recipe_overrides_are_written_in_place_witness :
  let s :=
    mkState (<[1%positive := {["run" := VRef 2%positive]}]>
               {[2%positive := <["results_dir" := VStr "/mine"]>
                                 {["name" := VStr "llama"]}]})
            [] () in
  let out := setdefault_setitem 1%positive "run" "results_dir"
                                (VStr "/opt/ml/model") s in
  written_in_place 1%positive "run" "results_dir" (VStr "/opt/ml/model") s out
  /\ contents out.2 2%positive =
       <["results_dir" := VStr "/opt/ml/model"]> {["name" := VStr "llama"]}.
Proof.
  split; [|reflexivity].
  apply (recipe_overrides_are_written_in_place 1%positive "run" "results_dir"
           (VStr "/opt/ml/model")).
  by eexists.
Defined.
End EstimatorExtras.
